(** * ext-proc-routing-decision: the stream processor and the server stop sequence

    A shallow embedding of [pkg/processor/processor.go] and of [Stop] in
    [pkg/server/server.go].

    - Go strings and byte slices are [string]; the conversions
      [string(n.RawValue)] and [[]byte(header)] are the identity.
    - Protobuf messages are records, a pointer that may be nil is an [option],
      a oneof is an inductive type.
    - Effects are a trace of events (log entries, the outbound GET, the
      release of the response body, the responses sent on the stream).  What
      the outside world answers (the peer, the decision endpoint, the
      transport) is an input of the functions.
    - A computation can return, block for ever on a channel, or panic on a nil
      pointer: the three cases of [Res]. *)

From Stdlib Require Import String Ascii List ZArith Bool Lia.
Import ListNotations.
Open Scope string_scope.
Open Scope list_scope.

(** ** Errors *)

(** gRPC status codes used by the repository. *)
Inductive Code := Unknown | Unimplemented.

Definition Code_String (c : Code) : string :=
  match c with
  | Unknown => "Unknown"
  | Unimplemented => "Unimplemented"
  end.

(** Go [error] values.  [EOF] is the sentinel [io.EOF]; [Errorf] is
    [fmt.Errorf] without [%w] and [Wrapf] with it; [StatusError] is what
    [status.Errorf] and [status.Error] build; [Foreign] is any error made
    outside this repository (transport, JSON decoder, context). *)
Inductive error :=
| EOF
| Errorf (msg : string)
| Wrapf (prefix : string) (cause : error)
| StatusError (c : Code) (desc : string)
| Foreign (msg : string).

Fixpoint Error_ (e : error) : string :=
  match e with
  | EOF => "EOF"
  | Errorf m => m
  | Wrapf p c => p ++ Error_ c
  | StatusError c d => "rpc error: code = " ++ Code_String c ++ " desc = " ++ d
  | Foreign m => m
  end.

(** [err == io.EOF]: identity with the sentinel. *)
Definition is_EOF (e : error) : bool :=
  match e with
  | EOF => true
  | _ => false
  end.

(** ** Results and the trace monad *)

Inductive Res (A : Type) :=
| Done (a : A)
| Hang
| Panic.
Arguments Done {A} a.
Arguments Hang {A}.
Arguments Panic {A}.

Section Trace.
Variable Ev : Type.

Definition M (A : Type) : Type := list Ev * Res A.

Definition ret {A} (a : A) : M A := ([], Done a).

Definition bind {A B} (m : M A) (f : A -> M B) : M B :=
  match m with
  | (t, Done a) => let (t', r) := f a in (t ++ t', r)
  | (t, Hang) => (t, Hang)
  | (t, Panic) => (t, Panic)
  end.

Definition emit (e : Ev) : M unit := ([e], Done tt).

Definition hang {A} : M A := ([], Hang).

Definition panic {A} : M A := ([], Panic).

(** Dereference of a pointer: a nil pointer panics. *)
Definition deref {A} (p : option A) : M A :=
  match p with
  | Some a => ret a
  | None => panic
  end.

Definition trace_of {A} (m : M A) : list Ev := fst m.
Definition result_of {A} (m : M A) : Res A := snd m.
End Trace.

Arguments ret {Ev A} a.
Arguments bind {Ev A B} m f.
Arguments emit {Ev} e.
Arguments hang {Ev A}.
Arguments panic {Ev A}.
Arguments deref {Ev A} p.
Arguments trace_of {Ev A} m.
Arguments result_of {Ev A} m.

Declare Scope go_scope.
Delimit Scope go_scope with go.
Notation "x <- m ;; k" := (bind m (fun x => k))
  (at level 61, m at next level, right associativity) : go_scope.
Notation "' p <- m ;; k" := (bind m (fun x => let p := x in k))
  (at level 61, p pattern, m at next level, right associativity) : go_scope.
Notation "m ;; k" := (bind m (fun _ => k))
  (at level 61, right associativity) : go_scope.
Open Scope go_scope.

(** ** Logging *)

Inductive Level := Debug | Info | Error.

(** ** Buffered channels *)

Module Chan.
Record t (A : Type) := mk { buf : list A; cap : nat }.
Arguments mk {A} buf cap.
Arguments buf {A} _.
Arguments cap {A} _.

(** [make(chan A, n)]. *)
Definition make {A} (n : nat) : t A := mk [] n.

(** [c <- a] when no receiver is waiting: it goes through while the buffer
    has room and would block otherwise. *)
Definition send {A} (c : t A) (a : A) : option (t A) :=
  if Nat.ltb (length (buf c)) (cap c)
  then Some (mk (buf c ++ [a]) (cap c))
  else None.

(** [<-c] when no sender is left: it takes the oldest buffered value and
    would block on an empty buffer. *)
Definition recv {A} (c : t A) : option (A * t A) :=
  match buf c with
  | a :: rest => Some (a, mk rest (cap c))
  | [] => None
  end.
End Chan.

(** ** Configuration *)

(** Package [config] is read once at start-up from the environment; its
    source is not part of the verified files, so its three values are a
    parameter of everything below. *)
Module config.
Record t := mk {
  PreferredSvcHeader : string;
  RoutingDecisionHeader : string;
  RoutingDecisionServer : string
}.
End config.

(** ** Envoy messages (the fields this repository reads or writes) *)

Module core_v3.
Record HeaderValue := mkHeaderValue {
  Key : string;
  RawValue : string
}.

Inductive HeaderAppendAction :=
| APPEND_IF_EXISTS_OR_ADD
| ADD_IF_ABSENT
| OVERWRITE_IF_EXISTS_OR_ADD
| OVERWRITE_IF_EXISTS.

Record HeaderValueOption := mkHeaderValueOption {
  Header : option HeaderValue;
  AppendAction : HeaderAppendAction
}.

Record HeaderMap := mkHeaderMap {
  Headers : list HeaderValue
}.
End core_v3.

Module ext_proc_v3.
Record HttpHeaders := mkHttpHeaders {
  Headers : option core_v3.HeaderMap
}.

Inductive ProcessingRequest_Request :=
| ProcessingRequest_RequestHeaders (RequestHeaders : option HttpHeaders)
| ProcessingRequest_RequestBody
| ProcessingRequest_RequestTrailers
| ProcessingRequest_ResponseHeaders (ResponseHeaders : option HttpHeaders)
| ProcessingRequest_ResponseBody
| ProcessingRequest_ResponseTrailers
| ProcessingRequest_Other (tag : nat).

(** [Request] is the oneof; [None] is an unset oneof (a nil interface). *)
Record ProcessingRequest := mkProcessingRequest {
  Request : option ProcessingRequest_Request
}.

Inductive CommonResponse_ResponseStatus :=
| CommonResponse_CONTINUE
| CommonResponse_CONTINUE_AND_REPLACE.

Record HeaderMutation := mkHeaderMutation {
  SetHeaders : list core_v3.HeaderValueOption;
  RemoveHeaders : list string
}.

Record CommonResponse := mkCommonResponse {
  Status : CommonResponse_ResponseStatus;
  HeaderMutation_ : option HeaderMutation;
  ClearRouteCache : bool
}.

(** [&CommonResponse{}]. *)
Definition CommonResponse_zero : CommonResponse :=
  mkCommonResponse CommonResponse_CONTINUE None false.

Record HeadersResponse := mkHeadersResponse {
  Response : option CommonResponse
}.

(** [&HeadersResponse{}]. *)
Definition HeadersResponse_zero : HeadersResponse := mkHeadersResponse None.

Inductive ProcessingResponse_Response :=
| ProcessingResponse_RequestHeaders (RequestHeaders : option HeadersResponse).

Record ProcessingResponse := mkProcessingResponse {
  Response_ : option ProcessingResponse_Response
}.

(** [&ProcessingResponse{}]. *)
Definition ProcessingResponse_zero : ProcessingResponse :=
  mkProcessingResponse None.

(** The generated getters, which read through nil pointers. *)
Definition GetHeaderMutation (r : HeadersResponse) : option HeaderMutation :=
  match Response r with
  | Some c => HeaderMutation_ c
  | None => None
  end.

Definition GetClearRouteCache (r : HeadersResponse) : bool :=
  match Response r with
  | Some c => ClearRouteCache c
  | None => false
  end.
End ext_proc_v3.

(** ** Package processor *)

Module processor.
Import ext_proc_v3.

Record RoutingDecision := mkRoutingDecision {
  Decision : string
}.

(** What the stream processor does to the outside world, in order. *)
Inductive Event :=
| Log (lvl : Level) (msg : string)
| HttpGet (url : string)
| BodyClose
| Send (resp : ProcessingResponse).

Definition log (lvl : Level) (msg : string) : M Event unit :=
  emit (Log lvl msg).

(** The health service: [Check] always reports serving, [Watch] is not
    implemented. *)
Inductive ServingStatus := UNKNOWN | SERVING | NOT_SERVING.

Definition Check (service : string)
  : M Event (ServingStatus * option error) :=
  log Debug "received health check request" ;;
  ret (SERVING, None).

Definition Watch (service : string) : M Event (option error) :=
  ret (Some (StatusError Unimplemented "watch is not implemented")).

(** How one pass of the loop of [Process] ends. *)
Inductive Ctl :=
| Continue
| Return (err : option error).

(** How [Process] stands after a finite number of passes. *)
Inductive Exit :=
| Returned (err : option error)
| Receiving.

Section WithEnvironment.
(** [strings.ToLower]. *)
Variable ToLower : string -> string.
(** The bytes behind [resp.Body], and [json.NewDecoder(body).Decode(&v)],
    which gives back the struct as the decoder left it and its error. *)
Variable Body : Type.
Variable Decode : Body -> RoutingDecision -> RoutingDecision * option error.
Variable cfg : config.t.

Record Response := mkResponse {
  StatusCode : Z;
  Body_ : Body
}.

(** The two results of [http.Get]. *)
Inductive GetResult :=
| GetOk (resp : Response)
| GetErr (err : error).

(** The two results of [srv.Recv]. *)
Inductive RecvResult :=
| RecvOk (req : ProcessingRequest)
| RecvErr (err : error).

(** What the outside world answers during one pass of the loop:
    [ctx_err] is [ctx.Err()] at the [select] ([None] while the context is
    not done), [recv] what [srv.Recv] returns, [get] what [http.Get]
    returns if it is called, [send_err] what [srv.Send] returns if it is
    called. *)
Record Turn := mkTurn {
  ctx_err : option error;
  recv : RecvResult;
  get : GetResult;
  send_err : option error
}.

(** [rc <- resp] and [<-rc] of a goroutine that no other goroutine will
    ever unblock. *)
Definition chan_send {A} (c : Chan.t A) (a : A) : M Event (Chan.t A) :=
  match Chan.send c a with
  | Some c' => ret c'
  | None => hang
  end.

Definition chan_recv {A} (c : Chan.t A) : M Event (A * Chan.t A) :=
  match Chan.recv c with
  | Some r => ret r
  | None => hang
  end.

Fixpoint getPreferredSvcFromHeaders_range
    (hs : list core_v3.HeaderValue) : string :=
  match hs with
  | [] => ""
  | n :: rest =>
      if String.eqb (ToLower (core_v3.Key n))
                    (config.PreferredSvcHeader cfg)
      then core_v3.RawValue n
      else getPreferredSvcFromHeaders_range rest
  end.

Definition getPreferredSvcFromHeaders (in_ : option HttpHeaders)
  : M Event string :=
  h <- deref in_ ;;
  m <- deref (Headers h) ;;
  ret (getPreferredSvcFromHeaders_range (core_v3.Headers m)).

Definition doExternalServiceCall (url : string) (rc : Chan.t Response)
    (world : GetResult) : M Event (Chan.t Response * option error) :=
  log Debug "calling the external service" ;;
  emit (HttpGet url) ;;
  match world with
  | GetOk resp => rc' <- chan_send rc resp ;; ret (rc', None)
  | GetErr err => ret (rc, Some err)
  end.

(** [errGrp.Go(f)] followed by [errGrp.Wait()] with a single function:
    the caller resumes when [f] has returned, with the error of [f]. *)
Definition fetchRoutingDecision (world : GetResult)
  : M Event (string * option error) :=
  if String.eqb (config.RoutingDecisionServer cfg) ""
  then
    let err := Errorf "routing decision server has not been configured" in
    log Error "unable to get the routing decision from external service" ;;
    ret ("", Some err)
  else
    let rChan := Chan.make 1 in
    '(rChan, err) <-
      doExternalServiceCall (config.RoutingDecisionServer cfg) rChan world ;;
    match err with
    | Some _ =>
        log Error "unable to get the routing decision from external service"
    | None => ret tt
    end ;;
    '(resp, _) <- chan_recv rChan ;;
    log Debug "fetching took" ;;
    let '(decisionResp, err) := Decode (Body_ resp) (mkRoutingDecision "") in
    match err with
    | Some _ => log Error "error decoding response from external service"
    | None => ret tt
    end ;;
    emit BodyClose ;;
    ret (Decision decisionResp, err).

(** The response built at the end of [generateRoutingDecision]. *)
Definition build_response (header : string) : HeadersResponse :=
  mkHeadersResponse (Some
    (mkCommonResponse
       CommonResponse_CONTINUE
       (Some (mkHeaderMutation
          [ core_v3.mkHeaderValueOption
              (Some (core_v3.mkHeaderValue
                       (config.RoutingDecisionHeader cfg) header))
              core_v3.APPEND_IF_EXISTS_OR_ADD ]
          [ config.PreferredSvcHeader cfg ]))
       true)).

Definition generateRoutingDecision (in_ : option HttpHeaders)
    (world : GetResult) : M Event (HeadersResponse * option error) :=
  header <- getPreferredSvcFromHeaders in_ ;;
  if String.eqb header ""
  then
    '(decision, err) <- fetchRoutingDecision world ;;
    match err with
    | Some e =>
        log Error "failed to fetch routing decision" ;;
        ret (HeadersResponse_zero, Some e)
    | None =>
        if String.eqb decision ""
        then
          log Error "no decision is present" ;;
          ret (HeadersResponse_zero, None)
        else ret (build_response decision, None)
    end
  else ret (build_response header, None).

(** [srv.Send(resp)] and the handling of its error. *)
Definition send_response (resp : ProcessingResponse) (t : Turn)
  : M Event Ctl :=
  log Info "sending ProcessingResponse" ;;
  emit (Send resp) ;;
  match send_err t with
  | Some err => log Error "send error" ;; ret (Return (Some err))
  | None => ret Continue
  end.

(** One pass of the [for] loop of [Process]. *)
Definition Process_iteration (t : Turn) : M Event Ctl :=
  match ctx_err t with
  | Some cause =>
      log Debug "processing server context done" ;;
      ret (Return (Some cause))
  | None =>
      match recv t with
      | RecvErr err =>
          if is_EOF err
          then ret (Return None)
          else ret (Return (Some (StatusError Unknown
                 ("cannot receive stream request: " ++ Error_ err))))
      | RecvOk req =>
          match Request req with
          | Some (ProcessingRequest_RequestHeaders h) =>
              log Debug "got RequestHeaders" ;;
              '(headersResp, err) <- generateRoutingDecision h (get t) ;;
              match err with
              | Some e => ret (Return (Some e))
              | None =>
                  send_response
                    (mkProcessingResponse
                       (Some (ProcessingResponse_RequestHeaders
                                (Some headersResp)))) t
              end
          | Some ProcessingRequest_RequestBody =>
              log Debug "got RequestBody (not currently implemented)" ;;
              send_response ProcessingResponse_zero t
          | Some ProcessingRequest_RequestTrailers =>
              log Debug "got RequestTrailers (not currently implemented)" ;;
              send_response ProcessingResponse_zero t
          | Some (ProcessingRequest_ResponseHeaders _) =>
              log Debug "got ResponseHeaders (not currently implemented)" ;;
              send_response ProcessingResponse_zero t
          | Some ProcessingRequest_ResponseBody =>
              log Debug "got ResponseBody (not currently implemented)" ;;
              send_response ProcessingResponse_zero t
          | Some ProcessingRequest_ResponseTrailers =>
              log Debug "got ResponseTrailers (not currently handled)" ;;
              send_response ProcessingResponse_zero t
          | Some (ProcessingRequest_Other _) | None =>
              log Error "unknown Request type" ;;
              send_response ProcessingResponse_zero t
          end
      end
  end.

(** [Process] against the first passes of a stream.  It is [Receiving]
    when every pass of [turns] went round the loop. *)
Fixpoint Process (turns : list Turn) : M Event Exit :=
  match turns with
  | [] => ret Receiving
  | t :: rest =>
      c <- Process_iteration t ;;
      match c with
      | Continue => Process rest
      | Return err => ret (Returned err)
      end
  end.
End WithEnvironment.

Arguments GetOk {Body} resp.
Arguments GetErr {Body} err.
Arguments mkResponse {Body} StatusCode Body_.
Arguments mkTurn {Body} ctx_err recv get send_err.
Arguments ctx_err {Body} _.
Arguments recv {Body} _.
Arguments get {Body} _.
Arguments send_err {Body} _.

(** The responses sent on the stream, the URLs fetched and the messages
    logged, read off a trace. *)
Fixpoint sent (tr : list Event) : list ProcessingResponse :=
  match tr with
  | [] => []
  | Send r :: rest => r :: sent rest
  | _ :: rest => sent rest
  end.

Fixpoint fetched (tr : list Event) : list string :=
  match tr with
  | [] => []
  | HttpGet u :: rest => u :: fetched rest
  | _ :: rest => fetched rest
  end.

Fixpoint logged (lvl : Level) (tr : list Event) : list string :=
  match tr with
  | [] => []
  | Log l m :: rest =>
      match l, lvl with
      | Debug, Debug | Info, Info | Error, Error => m :: logged lvl rest
      | _, _ => logged lvl rest
      end
  | _ :: rest => logged lvl rest
  end.
(** How many times a response body was released along a trace. *)
Fixpoint closed (tr : list Event) : nat :=
  match tr with
  | [] => 0
  | BodyClose :: rest => S (closed rest)
  | _ :: rest => closed rest
  end.
End processor.

(** ** Package server: the stop sequence *)

Module server.
(** [time.Duration] counts nanoseconds. *)
Definition Second : Z := 1000000000.
Definition defaultShutdownWait : Z := (5 * Second)%Z.

Record http_Server := mkHttpServer {
  Addr : string
}.

Record grpc_Server := mkGrpcServer {
  maxConcurrentStreams : Z
}.

Record mockHttpBackend := mkMockHttpBackend {
  enabled : bool;
  bindAddress : string;
  httpsrv : option http_Server
}.

Record Server := mkServer {
  grpcServer : option grpc_Server;
  grpcNetwork : string;
  grpcAddress : string;
  mockBackend : mockHttpBackend
}.

(** What [Stop] does to the outside world, in order.  [Shutdown d] is
    [httpsrv.Shutdown(ctx)] under a context that expires after [d];
    [Cancel] is the deferred release of that context. *)
Inductive Event :=
| Log (lvl : Level) (msg : string)
| GracefulStop
| RemoveAll (path : string)
| Shutdown (window : Z)
| Sleep (d : Z)
| Cancel.

(** What the outside world answers to [Stop]: the error of [os.RemoveAll]
    and the error of [httpsrv.Shutdown]. *)
Record World := mkWorld {
  removeall_err : option error;
  shutdown_err : option error
}.

Definition Stop (s : Server) (w : World) : M Event (option error) :=
  let window := (30 * Second)%Z in
  let finish : M Event (option error) :=
    emit (Sleep defaultShutdownWait) ;;
    emit Cancel ;;
    ret None in
  match grpcServer s with
  | Some _ => emit (Log Info "stopping grpc server") ;; emit GracefulStop
  | None => ret tt
  end ;;
  (if String.eqb (grpcNetwork s) "unix"
   then emit (RemoveAll (grpcAddress s))
   else ret tt) ;;
  match httpsrv (mockBackend s) with
  | Some _ =>
      emit (Log Info "stopping http server") ;;
      emit (Shutdown window) ;;
      match shutdown_err w with
      | Some err =>
          emit Cancel ;;
          ret (Some (Wrapf "http server shutdown error: " err))
      | None => finish
      end
  | None => finish
  end.

(** The trace without its log entries. *)
Fixpoint actions (tr : list Event) : list Event :=
  match tr with
  | [] => []
  | Log _ _ :: rest => actions rest
  | e :: rest => e :: actions rest
  end.
(** *** Construction *)

Definition defaultGrpcNetwork : string := "tcp".
Definition defaultGrpcAddress : string := ":8081".
Definition defaultHTTPBindAddr : string := ":8080".
Definition defaultMaxConcurrentStreams : Z := 1000.

(** An option is a function that updates the server in place. *)
Definition Option : Type := Server -> Server.

(** [&Server{ctx: ctx, log: log}]: every other field has its zero value.
    The context, the logger and the request multiplexer of the backend are
    handles that no function below reads; they are not fields of [Server]. *)
Definition Server_zero : Server :=
  mkServer None "" "" (mkMockHttpBackend false "" None).

Definition WithGrpcServer (srv : option grpc_Server) (network address : string)
  : Option :=
  fun s => mkServer srv network (":" ++ address) (mockBackend s).

Definition WithMockBackend : Option :=
  fun s =>
    mkServer (grpcServer s) (grpcNetwork s) (grpcAddress s)
      (mkMockHttpBackend true (bindAddress (mockBackend s))
                         (httpsrv (mockBackend s))).

Definition New (opts : list Option) : Server :=
  let srv := fold_left (fun s opt => opt s) opts Server_zero in
  let srv :=
    if String.eqb (grpcNetwork srv) ""
    then mkServer (grpcServer srv) defaultGrpcNetwork (grpcAddress srv)
                  (mockBackend srv)
    else srv in
  let srv :=
    if String.eqb (grpcAddress srv) ""
    then mkServer (grpcServer srv) (grpcNetwork srv) defaultGrpcAddress
                  (mockBackend srv)
    else srv in
  let srv :=
    match grpcServer srv with
    | None =>
        mkServer (Some (mkGrpcServer defaultMaxConcurrentStreams))
                 (grpcNetwork srv) (grpcAddress srv) (mockBackend srv)
    | Some _ => srv
    end in
  if enabled (mockBackend srv)
  then
    let bind_ :=
      if String.eqb (bindAddress (mockBackend srv)) ""
      then defaultHTTPBindAddr
      else bindAddress (mockBackend srv) in
    mkServer (grpcServer srv) (grpcNetwork srv) (grpcAddress srv)
      (mkMockHttpBackend true bind_ (Some (mkHttpServer bind_)))
  else srv.

(** *** Readiness *)

(** The one thing the readiness probe does to the outside world. *)
Inductive Probe :=
| Get (url : string).

(** What the outside world answers to one probe: the error of
    [http.NewRequest], and the error or the status code of
    [httpClient.Do]. *)
Record ProbeWorld := mkProbeWorld {
  newrequest_err : option error;
  do_result : error + Z
}.

Definition StatusOK : Z := 200.

Definition IsReady (s : Server) (w : ProbeWorld) : M Probe bool :=
  if enabled (mockBackend s)
  then
    match newrequest_err w with
    | Some _ => ret false
    | None =>
        emit (Get ("http://" ++ bindAddress (mockBackend s) ++ "/headers")) ;;
        match do_result w with
        | inl _ => ret false
        | inr code =>
            if negb (Z.eqb code StatusOK) then ret false else ret true
        end
    end
  else ret true.

(** What the [select] of [WaitReady] takes at one pass: the expiry of the
    context, with [ctx.Err()], or a tick of the ticker, with what the world
    answers to the probe made at that tick. *)
Inductive Select :=
| Expired (cause : error)
| Tick (w : ProbeWorld).

(** How [WaitReady] stands after a finite number of passes. *)
Inductive Waited :=
| Answered (err : option error)
| Waiting.

Fixpoint WaitReady (s : Server) (passes : list Select) : M Probe Waited :=
  match passes with
  | [] => ret Waiting
  | Expired cause :: _ => ret (Answered (Some cause))
  | Tick w :: rest =>
      ready <- IsReady s w ;;
      if ready then ret (Answered None) else WaitReady s rest
  end.

(** The options this package exports, as data. *)
Inductive Exported :=
| UseGrpcServer (srv : option grpc_Server) (network address : string)
| UseMockBackend.

Definition exported (o : Exported) : Option :=
  match o with
  | UseGrpcServer srv network address => WithGrpcServer srv network address
  | UseMockBackend => WithMockBackend
  end.

Definition is_Shutdown (e : Event) : bool :=
  match e with
  | Shutdown _ => true
  | _ => false
  end.

Definition is_UseMockBackend (o : Exported) : bool :=
  match o with
  | UseMockBackend => true
  | _ => false
  end.
End server.

(** ** Package test: the expectations of the end-to-end cases *)

Module extproctest.

(** [http.Header] as seen through [Values]: the values stored under the
    canonical form of a name, in order.  [Get] is the first of them, or the
    empty string. *)
Definition http_Header : Type := string -> list string.

Definition Values (h : http_Header) (name : string) : list string := h name.

Definition Get (h : http_Header) (name : string) : string :=
  match h name with
  | [] => ""
  | v :: _ => v
  end.

Record HeaderValue := mkHeaderValue {
  Key : string;
  Value : string
}.

(** [Headers.Get]: the value of the first header whose key is [key]. *)
Fixpoint Headers_Get (headers : list HeaderValue) (key : string) : string :=
  match headers with
  | [] => ""
  | h :: rest => if String.eqb (Key h) key then Value h else Headers_Get rest key
  end.

Definition MatchActionFirst : string := "FIRST".
Definition MatchActionAny : string := "ANY".
Definition MatchActionAll : string := "ALL".

Record HeaderMatch := mkHeaderMatch {
  Name : string;
  Exact : string;
  Absent : bool;
  Regex : string;
  MatchAction : string
}.

(** [cmp.Or] on two strings: the first that is not empty. *)
Definition cmp_Or (a b : string) : string :=
  if String.eqb a "" then b else a.

Definition MatchType (hm : HeaderMatch) : string :=
  if negb (String.eqb (Exact hm) "") then "exact"
  else if Absent hm then "absent"
  else if negb (String.eqb (Regex hm) "") then "regex"
  else "".

Definition MatchValue (hm : HeaderMatch) : string :=
  if negb (String.eqb (Exact hm) "") then Exact hm
  else if Absent hm then "true"
  else if negb (String.eqb (Regex hm) "") then Regex hm
  else "".

(** The condition that [httpCall] requires of the status code of a
    response. *)
Definition status_accepted (StatusCode : Z) : bool :=
  (StatusCode >? 200)%Z || (StatusCode <? 499)%Z.

Section WithRegexp.
(** [regexp.Compile] followed by [MatchString]: [None] for an expression
    that does not compile, on which [regexp.MustCompile] panics. *)
Variable Compile : string -> option (string -> bool).

Definition match_ (hm : HeaderMatch) (value : string) : Res bool :=
  if Absent hm then
    if Absent hm then Done (String.eqb value "")
    else Done (negb (String.eqb value ""))
  else if negb (String.eqb (Exact hm) "") then
    Done (String.eqb value (Exact hm))
  else if negb (String.eqb (Regex hm) "") then
    match Compile (Regex hm) with
    | Some r => Done (r value)
    | None => Panic
    end
  else Done false.

(** The loop of the [ANY] case: the first value that matches decides. *)
Fixpoint Assert_any (hm : HeaderMatch) (values : list string) : Res bool :=
  match values with
  | [] => Done false
  | value :: rest =>
      match match_ hm value with
      | Done true => Done true
      | Done false => Assert_any hm rest
      | Hang => Hang
      | Panic => Panic
      end
  end.

(** The loop of the [ALL] case: the first value that does not match
    decides. *)
Fixpoint Assert_all (hm : HeaderMatch) (values : list string) : Res bool :=
  match values with
  | [] => Done true
  | value :: rest =>
      match match_ hm value with
      | Done true => Assert_all hm rest
      | Done false => Done false
      | Hang => Hang
      | Panic => Panic
      end
  end.

Definition Assert (hm : HeaderMatch) (headers : http_Header) : Res bool :=
  if String.eqb (MatchAction hm) "" || String.eqb (MatchAction hm) MatchActionFirst
  then match_ hm (Get headers (Name hm))
  else if String.eqb (MatchAction hm) MatchActionAny
  then Assert_any hm (Values headers (Name hm))
  else if String.eqb (MatchAction hm) MatchActionAll
  then
    if Nat.eqb (length (Values headers (Name hm))) 0
    then Done false
    else Assert_all hm (Values headers (Name hm))
  else Done false.

Record Actual := mkActual {
  RequestHeaders : http_Header;
  ResponseHeaders : http_Header
}.

Record Expect := mkExpect {
  ExpectRequestHeaders : list HeaderMatch;
  ExpectResponseHeaders : list HeaderMatch
}.

(** The text of a failed expectation, as [fmt.Errorf] is given it: which
    side, then the name, the action, the kind and the value of the matcher
    and the values found. *)
Variable describe :
  string -> string -> string -> string -> string -> list string -> string.

Definition failure (side : string) (h : HeaderMatch) (headers : http_Header)
  : error :=
  Errorf (describe side (Name h) (cmp_Or (MatchAction h) MatchActionFirst)
            (MatchType h) (MatchValue h) (Values headers (Name h))).

(** One of the two loops of [Expect.Assert]: the first matcher that fails
    gives the error. *)
Fixpoint Assert_each (side : string) (hs : list HeaderMatch)
    (headers : http_Header) : Res (option error) :=
  match hs with
  | [] => Done None
  | h :: rest =>
      match Assert h headers with
      | Done true => Assert_each side rest headers
      | Done false => Done (Some (failure side h headers))
      | Hang => Hang
      | Panic => Panic
      end
  end.

Definition Expect_Assert (e : Expect) (actual : Actual) : Res (option error) :=
  match Assert_each "request" (ExpectRequestHeaders e) (RequestHeaders actual) with
  | Done None =>
      Assert_each "response" (ExpectResponseHeaders e) (ResponseHeaders actual)
  | r => r
  end.
End WithRegexp.
End extproctest.

(** ** Vocabulary of the statements *)

Module props.
Import ext_proc_v3 processor.

Section WithEnvironment.
Variable ToLower : string -> string.
Variable cfg : config.t.

(** Header keys are compared without regard to case. *)
Definition same_name (a b : string) : Prop := ToLower a = ToLower b.

Definition lower_case (s : string) : Prop := ToLower s = s.

(** [h] is an occurrence of the preference header. *)
Definition preference (h : core_v3.HeaderValue) : Prop :=
  same_name (core_v3.Key h) (config.PreferredSvcHeader cfg).

(** The one set instruction of a routing decision [d]. *)
Definition set_decision (d : string) : core_v3.HeaderValueOption :=
  core_v3.mkHeaderValueOption
    (Some (core_v3.mkHeaderValue (config.RoutingDecisionHeader cfg) d))
    core_v3.APPEND_IF_EXISTS_OR_ADD.
End WithEnvironment.

(** The header set [hs] as the request-headers phase carries it. *)
Definition header_set (hs : list core_v3.HeaderValue) : option HttpHeaders :=
  Some (mkHttpHeaders (Some (core_v3.mkHeaderMap hs))).

(** A request-headers message carrying the header set [hs]. *)
Definition request_headers (hs : list core_v3.HeaderValue)
  : ProcessingRequest :=
  mkProcessingRequest (Some (ProcessingRequest_RequestHeaders (header_set hs))).

(** The response of the request-headers phase that carries [r]. *)
Definition headers_response (r : HeadersResponse) : ProcessingResponse :=
  mkProcessingResponse (Some (ProcessingResponse_RequestHeaders (Some r))).

(** Every kind of message but request headers, the unset oneof included. *)
Definition inert (k : option ProcessingRequest_Request) : bool :=
  match k with
  | Some (ProcessingRequest_RequestHeaders _) => false
  | _ => true
  end.

(** The pass answered the message with one response and went round the
    loop. *)
Definition answers_and_continues (m : M Event Ctl) : Prop :=
  result_of m = Done Continue /\ length (sent (trace_of m)) = 1%nat.

(** [Stop] returned after waiting the post-shutdown delay. *)
Definition settles (m : M server.Event (option error)) : Prop :=
  exists r, result_of m = Done r /\
            In (server.Sleep server.defaultShutdownWait) (trace_of m).
End props.

(** ** A concrete environment *)

Module sample.
Import ext_proc_v3 processor props.

(** [strings.ToLower] on ASCII text. *)
Definition lower_ascii (c : ascii) : ascii :=
  let n := nat_of_ascii c in
  if (65 <=? n)%nat && (n <=? 90)%nat then ascii_of_nat (n + 32) else c.

Fixpoint ToLower (s : string) : string :=
  match s with
  | EmptyString => EmptyString
  | String c rest => String (lower_ascii c) (ToLower rest)
  end.

(** Response bodies: a JSON object with the one string field [decision],
    or bytes that are not JSON. *)
Inductive Body :=
| DecisionObject (decision : string)
| NotJSON.

Definition Decode (b : Body) (v : RoutingDecision)
  : RoutingDecision * option error :=
  match b with
  | DecisionObject d => (mkRoutingDecision d, None)
  | NotJSON => (v, Some (Foreign "invalid character 'o' looking for beginning of value"))
  end.

Definition cfg : config.t :=
  config.mk "preferred-svc" "x-routing-decision" "http://decision.local/route".

Definition cfg_unset : config.t :=
  config.mk "preferred-svc" "x-routing-decision" "".

Definition plain : list core_v3.HeaderValue :=
  [ core_v3.mkHeaderValue ":path" "/"; core_v3.mkHeaderValue "accept" "*/*" ].

Definition preferring : list core_v3.HeaderValue :=
  [ core_v3.mkHeaderValue ":path" "/";
    core_v3.mkHeaderValue "Preferred-Svc" "svc-a";
    core_v3.mkHeaderValue "preferred-svc" "svc-z" ].

Definition refused : error := Foreign "dial tcp: connect: connection refused".

Definition answer (b : Body) : GetResult Body := GetOk (mkResponse 200%Z b).

Definition turn (req : ProcessingRequest) (world : GetResult Body)
  : Turn Body :=
  mkTurn None (RecvOk req) world None.

(** The functions of the processor in this environment. *)
Definition lookup := getPreferredSvcFromHeaders_range ToLower cfg.
Definition fetch := fetchRoutingDecision Body Decode cfg.
Definition generate := generateRoutingDecision ToLower Body Decode cfg.
Definition pass := Process_iteration ToLower Body Decode cfg.
Definition run := Process ToLower Body Decode cfg.

Definition unix_server : server.Server :=
  server.mkServer (Some (server.mkGrpcServer 1000%Z)) "unix" "/tmp/ext-proc.sock"
    (server.mkMockHttpBackend true ":8080"
       (Some (server.mkHttpServer ":8080"))).
End sample.

(** ** More of the concrete environment *)

Module fixtures.
Import ext_proc_v3 processor props sample.

Definition request_body : ProcessingRequest :=
  mkProcessingRequest (Some ProcessingRequest_RequestBody).

(** A first occurrence of the preference header without value, followed by
    one with a value. *)
Definition undecided : list core_v3.HeaderValue :=
  [ core_v3.mkHeaderValue ":path" "/";
    core_v3.mkHeaderValue "preferred-svc" "";
    core_v3.mkHeaderValue "preferred-svc" "svc-z" ].

Definition cancelled : error := Foreign "context canceled".
Definition expired : error := Foreign "context deadline exceeded".

(** A server with its backend, and the answers of a backend that is up, of
    one that is not there yet, and of one that answers 503. *)
Definition with_backend : server.Server :=
  server.New [server.WithGrpcServer None "tcp" "8081"; server.WithMockBackend].

Definition without_backend : server.Server :=
  server.New [server.WithGrpcServer None "tcp" "8081"].

Definition up : server.ProbeWorld := server.mkProbeWorld None (inr 200%Z).
Definition down : server.ProbeWorld := server.mkProbeWorld None (inl refused).
Definition unavailable : server.ProbeWorld :=
  server.mkProbeWorld None (inr 503%Z).

(** A stand-in for the regular expressions: the expression of one open
    parenthesis does not compile, and every other expression matches the
    values equal to it. *)
Definition Compile (re : string) : option (string -> bool) :=
  if String.eqb re "(" then None else Some (String.eqb re).

Definition describe (side name action kind value : string)
    (values : list string) : string :=
  "header match fail: " ++ side ++ " header " ++ name ++ " should match "
    ++ action ++ " header values with " ++ kind ++ "=" ++ value.

(** Headers in which the routing decision appears twice. *)
Definition decided : extproctest.http_Header :=
  fun name =>
    if String.eqb name "x-routing-decision" then ["svc-a"; "svc-a"] else [].
End fixtures.

(** * Properties *)

Import ext_proc_v3 processor props.

(** ** The trace monad *)

Lemma bind_ret {Ev A B} (a : A) (f : A -> M Ev B) : bind (ret a) f = f a.
Proof. unfold bind, ret. destruct (f a) as [t r]. reflexivity. Qed.

Lemma bind_emit {Ev B} (e : Ev) (k : M Ev B) :
  bind (emit e) (fun _ => k) = (e :: fst k, snd k).
Proof. unfold bind, emit. destruct k as [t r]. reflexivity. Qed.

Lemma bind_done {Ev A B} (t : list Ev) (a : A) (f : A -> M Ev B) :
  bind (t, Done a) f = (t ++ fst (f a), snd (f a)).
Proof. unfold bind. destruct (f a) as [t' r]. reflexivity. Qed.

Lemma bind_assoc {Ev A B C} (m : M Ev A) (f : A -> M Ev B) (g : B -> M Ev C) :
  bind (bind m f) g = bind m (fun a => bind (f a) g).
Proof.
  destruct m as [t [a| |]]; try reflexivity.
  unfold bind at 2 3. destruct (f a) as [t1 [b| |]]; simpl; try reflexivity.
  destruct (g b) as [t2 r]. now rewrite app_assoc.
Qed.

(** ** Reading a trace *)

Lemma sent_app (t1 t2 : list Event) : sent (t1 ++ t2) = sent t1 ++ sent t2.
Proof.
  induction t1 as [|e t1 IH]; [reflexivity|].
  destruct e; simpl; rewrite IH; reflexivity.
Qed.

Lemma fetched_app (t1 t2 : list Event) :
  fetched (t1 ++ t2) = fetched t1 ++ fetched t2.
Proof.
  induction t1 as [|e t1 IH]; [reflexivity|].
  destruct e; simpl; rewrite IH; reflexivity.
Qed.

Section Decision.
Variable ToLower : string -> string.
Variable Body : Type.
Variable Decode : Body -> RoutingDecision -> RoutingDecision * option error.
Variable cfg : config.t.

Local Abbreviation range := (getPreferredSvcFromHeaders_range ToLower cfg).
Local Abbreviation fetch := (fetchRoutingDecision Body Decode cfg).
Local Abbreviation generate := (generateRoutingDecision ToLower Body Decode cfg).
Local Abbreviation pass := (Process_iteration ToLower Body Decode cfg).
Local Abbreviation preferred := (config.PreferredSvcHeader cfg).

(** *** The header lookup *)

Lemma range_first (pre post : list core_v3.HeaderValue) (h : core_v3.HeaderValue) :
  (forall x, In x pre -> ToLower (core_v3.Key x) <> preferred) ->
  ToLower (core_v3.Key h) = preferred ->
  range (pre ++ h :: post) = core_v3.RawValue h.
Proof.
  intros Hpre Hh. induction pre as [|x pre IH]; simpl.
  - rewrite Hh, String.eqb_refl. reflexivity.
  - destruct (String.eqb_spec (ToLower (core_v3.Key x)) preferred) as [E|_].
    + exfalso. apply (Hpre x); [now left | exact E].
    + apply IH. intros y Hy. apply Hpre. now right.
Qed.

Lemma range_absent (hs : list core_v3.HeaderValue) :
  (forall x, In x hs -> ToLower (core_v3.Key x) <> preferred) ->
  range hs = "".
Proof.
  induction hs as [|x hs IH]; intros Hhs; simpl; [reflexivity|].
  destruct (String.eqb_spec (ToLower (core_v3.Key x)) preferred) as [E|_].
  - exfalso. apply (Hhs x); [now left | exact E].
  - apply IH. intros y Hy. apply Hhs. now right.
Qed.

(** With the configured name in lower case, the comparison of the code is
    the comparison without regard to case. *)
Lemma preference_iff (h : core_v3.HeaderValue) :
  lower_case ToLower preferred ->
  (preference ToLower cfg h <-> ToLower (core_v3.Key h) = preferred).
Proof.
  unfold lower_case, preference, same_name. intros L. rewrite L. tauto.
Qed.

(** *** The shape of [generateRoutingDecision] *)

Lemma generate_unfold (hs : list core_v3.HeaderValue) (world : GetResult Body) :
  generate (header_set hs) world =
  if String.eqb (range hs) ""
  then
    bind (fetch world) (fun x =>
      match snd x with
      | Some e =>
          bind (log Error "failed to fetch routing decision")
               (fun _ => ret (HeadersResponse_zero, Some e))
      | None =>
          if String.eqb (fst x) ""
          then bind (log Error "no decision is present")
                    (fun _ => ret (HeadersResponse_zero, None))
          else ret (build_response cfg (fst x), None)
      end)
  else ret (build_response cfg (range hs), None).
Proof.
  cbv beta iota delta
    [generateRoutingDecision getPreferredSvcFromHeaders deref header_set
     Headers core_v3.Headers].
  rewrite !bind_ret.
  destruct (String.eqb (range hs) ""); [|reflexivity].
  destruct (fetch world) as [t [[d [e|]]| |]]; reflexivity.
Qed.
(** *** The three ways [fetchRoutingDecision] can go *)

Local Abbreviation endpoint := (config.RoutingDecisionServer cfg).

Lemma fetch_unset (world : GetResult Body) :
  endpoint = "" ->
  fetch world =
  ([Log Error "unable to get the routing decision from external service"],
   Done ("", Some (Errorf "routing decision server has not been configured"))).
Proof.
  intros E. unfold fetchRoutingDecision. rewrite E. reflexivity.
Qed.

Lemma fetch_refused (err : error) :
  endpoint <> "" ->
  fetch (GetErr err) =
  ([Log Debug "calling the external service"; HttpGet endpoint;
    Log Error "unable to get the routing decision from external service"],
   Hang).
Proof.
  intros E. apply String.eqb_neq in E.
  unfold fetchRoutingDecision. rewrite E. reflexivity.
Qed.

Lemma fetch_answered (resp : Response Body) :
  endpoint <> "" ->
  fetch (GetOk resp) =
  ([Log Debug "calling the external service"; HttpGet endpoint;
    Log Debug "fetching took"]
   ++ match snd (Decode (Body_ Body resp) (mkRoutingDecision "")) with
      | Some _ => [Log Error "error decoding response from external service"]
      | None => []
      end
   ++ [BodyClose],
   Done (Decision (fst (Decode (Body_ Body resp) (mkRoutingDecision ""))),
         snd (Decode (Body_ Body resp) (mkRoutingDecision "")))).
Proof.
  intros E. apply String.eqb_neq in E.
  unfold fetchRoutingDecision. rewrite E.
  destruct resp as [code body]. cbv.
  destruct (Decode body (mkRoutingDecision "")) as [d [e|]]; reflexivity.
Qed.

(** [fetchRoutingDecision] sends nothing on the stream. *)
Lemma fetch_sends_nothing (world : GetResult Body) :
  sent (trace_of (fetch world)) = [].
Proof.
  destruct (String.eqb_spec endpoint "") as [E|E].
  - rewrite (fetch_unset world E). reflexivity.
  - destruct world as [resp|err].
    + rewrite (fetch_answered resp E). unfold trace_of, fst.
      rewrite !sent_app.
      destruct (snd (Decode (Body_ Body resp) (mkRoutingDecision "")));
        reflexivity.
    + rewrite (fetch_refused err E). reflexivity.
Qed.

(** *** One pass of the loop on a request-headers message *)

Lemma pass_request_headers (t : Turn Body) (hs : list core_v3.HeaderValue) :
  ctx_err t = None ->
  recv t = RecvOk (request_headers hs) ->
  pass t =
  bind (log Debug "got RequestHeaders") (fun _ =>
    bind (generate (header_set hs) (get t)) (fun x =>
      match snd x with
      | Some e => ret (Return (Some e))
      | None => send_response Body (headers_response (fst x)) t
      end)).
Proof.
  intros Hctx Hrecv. unfold Process_iteration. rewrite Hctx, Hrecv.
  cbn [Request request_headers]. unfold log. rewrite !bind_emit.
  destruct (generate (header_set hs) (get t)) as [tr [[r [e|]]| |]];
    reflexivity.
Qed.

Lemma send_response_sent (r : ProcessingResponse) (t : Turn Body) :
  sent (trace_of (send_response Body r t)) = [r] /\
  fetched (trace_of (send_response Body r t)) = [] /\
  result_of (send_response Body r t) =
  Done (match send_err t with
        | Some err => Return (Some err)
        | None => Continue
        end).
Proof.
  unfold send_response. destruct (send_err t); repeat split; reflexivity.
Qed.

(** *** Decisions taken from the request *)

(** C3.  When the first occurrence of the preference header, whatever the
    case of its key, has a non-empty value, that value is the routing
    decision, no outbound call is made, and the one response sent for the
    message sets the routing-decision header to the value, removes the
    preference header and asks for the route cache to be cleared.  The
    configured name is in lower case, as the code compares the lower-cased
    key with it. *)
Theorem preference_header_short_circuits
    (pre post : list core_v3.HeaderValue) (h : core_v3.HeaderValue)
    (t : Turn Body) :
  lower_case ToLower preferred ->
  (forall x, In x pre -> ~ preference ToLower cfg x) ->
  preference ToLower cfg h ->
  core_v3.RawValue h <> "" ->
  ctx_err t = None ->
  recv t = RecvOk (request_headers (pre ++ h :: post)) ->
  range (pre ++ h :: post) = core_v3.RawValue h /\
  exists resp,
    generate (header_set (pre ++ h :: post)) (get t) = ([], Done (resp, None)) /\
    GetHeaderMutation resp =
      Some (mkHeaderMutation [set_decision cfg (core_v3.RawValue h)]
                             [preferred]) /\
    GetClearRouteCache resp = true /\
    fetched (trace_of (pass t)) = [] /\
    sent (trace_of (pass t)) = [headers_response resp].
Proof.
  intros L Hpre Hh Hv Hctx Hrecv.
  assert (R : range (pre ++ h :: post) = core_v3.RawValue h).
  { apply range_first.
    - intros x Hx E. apply (Hpre x Hx). now apply preference_iff.
    - now apply preference_iff. }
  split; [exact R|].
  exists (build_response cfg (core_v3.RawValue h)).
  assert (G : generate (header_set (pre ++ h :: post)) (get t) =
              ([], Done (build_response cfg (core_v3.RawValue h), None))).
  { rewrite generate_unfold, R.
    apply String.eqb_neq in Hv. rewrite Hv. reflexivity. }
  split; [exact G|].
  split; [reflexivity|]. split; [reflexivity|].
  rewrite (pass_request_headers t _ Hctx Hrecv), G.
  unfold log. rewrite bind_emit, bind_done. cbn [snd fst trace_of app].
  destruct (send_response_sent
              (headers_response (build_response cfg (core_v3.RawValue h))) t)
    as (S & F & _).
  unfold trace_of in S, F. cbn [sent fetched]. now rewrite S, F.
Qed.

(** *** Decisions fetched from the endpoint *)

(** C4.  With no preference header in the header set, an outbound call that
    succeeds with the empty string as decoded decision makes
    [generateRoutingDecision] return the empty response, which has no header
    mutation and does not clear the route cache, and no error. *)
Theorem empty_decision_leaves_request_unmodified
    (hs : list core_v3.HeaderValue) (resp : Response Body) :
  lower_case ToLower preferred ->
  (forall x, In x hs -> ~ preference ToLower cfg x) ->
  endpoint <> "" ->
  Decode (Body_ Body resp) (mkRoutingDecision "") =
    (mkRoutingDecision "", None) ->
  exists tr r,
    generate (header_set hs) (GetOk resp) = (tr, Done (r, None)) /\
    r = HeadersResponse_zero /\
    GetHeaderMutation r = None /\
    GetClearRouteCache r = false /\
    fetched tr = [endpoint] /\
    sent tr = [].
Proof.
  intros L Hhs E D.
  assert (R : range hs = "").
  { apply range_absent. intros x Hx K. apply (Hhs x Hx).
    now apply preference_iff. }
  rewrite generate_unfold, R, (fetch_answered resp E), D.
  cbn [snd fst app String.eqb Decision]. rewrite bind_done.
  cbn [snd fst String.eqb Decision]. unfold log. rewrite bind_emit.
  eexists. exists HeadersResponse_zero.
  split; [reflexivity|]. repeat split.
Qed.

(** C8.  With the endpoint URL unset, [fetchRoutingDecision] returns the
    configuration error at once: the only event is the log entry, and no GET
    is attempted, whatever the endpoint would have answered. *)
Theorem fetch_unconfigured_fails_before_any_call (world : GetResult Body) :
  endpoint = "" ->
  fetch world =
    ([Log Error "unable to get the routing decision from external service"],
     Done ("", Some (Errorf "routing decision server has not been configured")))
  /\ fetched (trace_of (fetch world)) = [].
Proof.
  intros E. rewrite (fetch_unset world E). split; reflexivity.
Qed.

(** C9.  When [http.Get] fails, [fetchRoutingDecision] does not return: the
    goroutine sent nothing on the response channel, and the receive that
    follows the logging of the error blocks for ever. *)
Theorem fetch_blocks_when_get_fails (err : error) :
  endpoint <> "" ->
  result_of (fetch (GetErr err)) = Hang /\
  fetched (trace_of (fetch (GetErr err))) = [endpoint] /\
  logged Error (trace_of (fetch (GetErr err))) =
    ["unable to get the routing decision from external service"].
Proof.
  intros E. rewrite (fetch_refused err E). repeat split.
Qed.

(** Every other outcome of the call makes [fetchRoutingDecision] return. *)
Lemma fetch_returns_otherwise (world : GetResult Body) :
  (endpoint = "" \/ exists resp, world = GetOk resp) ->
  exists v, result_of (fetch world) = Done v.
Proof.
  intros [E | [resp ->]].
  - rewrite (fetch_unset world E). eexists. reflexivity.
  - destruct (String.eqb_spec endpoint "") as [E|E].
    + rewrite (fetch_unset _ E). eexists. reflexivity.
    + rewrite (fetch_answered resp E). eexists. reflexivity.
Qed.

(** *** The header mutation *)

(** C10.  A response of [generateRoutingDecision] that carries a header
    mutation carries exactly one set instruction, the routing-decision header
    with a non-empty decision under append-if-exists-or-add, and exactly one
    removal, the preference header, whether the decision came from the
    preference header of the request or, the request having none, from the
    endpoint. *)
Theorem mutation_has_one_set_and_one_removal
    (in_ : option HttpHeaders) (world : GetResult Body)
    (tr : list Event) (resp : HeadersResponse) (err : option error)
    (hm : HeaderMutation) :
  generate in_ world = (tr, Done (resp, err)) ->
  GetHeaderMutation resp = Some hm ->
  exists d hs,
    d <> "" /\
    SetHeaders hm = [set_decision cfg d] /\
    RemoveHeaders hm = [preferred] /\
    in_ = header_set hs /\
    (range hs = d \/
     range hs = "" /\ exists t, fetch world = (t, Done (d, None))).
Proof.
  intros G H.
  destruct in_ as [[[[hs]|]]|]; try discriminate G.
  change (Some _) with (header_set hs) in G.
  rewrite generate_unfold in G.
  destruct (String.eqb_spec (range hs) "") as [R|R].
  - destruct (fetch world) as [t [[d [e|]]| |]] eqn:F; try discriminate G.
    + unfold log in G. rewrite bind_done, bind_emit in G.
      cbn [snd fst] in G. injection G as _ <- _. discriminate H.
    + rewrite bind_done in G. cbn [snd fst] in G.
      destruct (String.eqb_spec d "") as [Dz|Dz].
      * unfold log in G. rewrite bind_emit in G.
        injection G as _ <- _. discriminate H.
      * injection G as _ <- _. injection H as <-.
        exists d, hs. repeat split; try assumption.
        right. split; [exact R|]. exists t. reflexivity.
  - injection G as _ <- _. injection H as <-.
    exists (range hs), hs. repeat split; try assumption. now left.
Qed.

(** *** The loop *)

Local Abbreviation run := (Process ToLower Body Decode cfg).

Lemma run_cons (t : Turn Body) (rest : list (Turn Body)) :
  run (t :: rest) =
  bind (pass t) (fun c =>
    match c with
    | Continue => run rest
    | Return err => ret (Returned err)
    end).
Proof. reflexivity. Qed.

Lemma run_returns (t : Turn Body) (rest : list (Turn Body))
    (tr : list Event) (err : option error) :
  pass t = (tr, Done (Return err)) ->
  run (t :: rest) = (tr, Done (Returned err)).
Proof.
  intros P. rewrite run_cons, P, bind_done. cbn [fst snd ret].
  now rewrite app_nil_r.
Qed.

Lemma run_continues (t : Turn Body) (rest : list (Turn Body))
    (tr : list Event) :
  pass t = (tr, Done Continue) ->
  run (t :: rest) = (tr ++ trace_of (run rest), result_of (run rest)).
Proof.
  intros P. rewrite run_cons, P, bind_done. reflexivity.
Qed.

(** The passes of a stream compose: what follows a prefix that is still
    receiving is the run of the rest. *)
Lemma run_app (pre rest : list (Turn Body)) :
  run (pre ++ rest) =
  bind (run pre) (fun x =>
    match x with
    | Receiving => run rest
    | Returned err => ret (Returned err)
    end).
Proof.
  induction pre as [|t pre IH].
  - cbn [app Process]. now rewrite bind_ret.
  - cbn [app]. rewrite !run_cons, bind_assoc.
    destruct (pass t) as [tr [[|err]| |]]; try reflexivity.
    rewrite !bind_done. cbn [fst snd]. now rewrite IH.
Qed.

(** C5.  A message of any kind but request headers (request body, request
    trailers, response headers, response body, response trailers, an unknown
    or unset kind) is answered by exactly one response, the empty one, with no
    outbound call; the pass ends as the send does, so that when the transport
    takes the response the loop goes on to the next receive. *)
Theorem inert_message_gets_one_empty_response
    (t : Turn Body) (req : ProcessingRequest) :
  ctx_err t = None ->
  recv t = RecvOk req ->
  inert (Request req) = true ->
  sent (trace_of (pass t)) = [ProcessingResponse_zero] /\
  fetched (trace_of (pass t)) = [] /\
  result_of (pass t) =
    Done (match send_err t with
          | Some err => Return (Some err)
          | None => Continue
          end) /\
  (send_err t = None ->
   forall rest,
     run (t :: rest) =
     (trace_of (pass t) ++ trace_of (run rest), result_of (run rest))).
Proof.
  intros Hctx Hrecv Hk.
  assert (P : exists m,
             pass t = bind (log Debug m)
                           (fun _ => send_response Body ProcessingResponse_zero t)
             \/ pass t = bind (log Error m)
                           (fun _ => send_response Body ProcessingResponse_zero t)).
  { unfold Process_iteration. rewrite Hctx, Hrecv.
    destruct (Request req) as [[h| | |h| | |n]|]; try discriminate Hk;
      eexists; (left; reflexivity) || (right; reflexivity). }
  destruct (send_response_sent ProcessingResponse_zero t) as (S & F & R).
  unfold trace_of, result_of in S, F, R.
  assert (Q : sent (trace_of (pass t)) = [ProcessingResponse_zero] /\
              fetched (trace_of (pass t)) = [] /\
              result_of (pass t) =
                Done (match send_err t with
                      | Some err => Return (Some err)
                      | None => Continue
                      end)).
  { destruct P as [m [P|P]]; rewrite P; unfold log; rewrite bind_emit;
      cbn [trace_of result_of fst snd sent fetched]; auto. }
  destruct Q as (Q1 & Q2 & Q3). repeat split; try assumption.
  intros Hs rest. rewrite Hs in Q3.
  apply run_continues. unfold trace_of, result_of in *.
  destruct (pass t) as [tr r]. cbn [fst snd] in *. now subst r.
Qed.

(** C6.  A receive that fails with the end-of-stream sentinel makes
    [Process] return no error, and a receive that fails with any other error
    makes it return a status error of code Unknown whose description carries
    the text of that error; in both cases nothing is sent or fetched after
    what the earlier passes did. *)
Theorem receive_failure_ends_the_stream
    (pre rest : list (Turn Body)) (t : Turn Body) (err : error)
    (tr : list Event) :
  run pre = (tr, Done Receiving) ->
  ctx_err t = None ->
  recv t = RecvErr err ->
  (err = EOF -> run (pre ++ t :: rest) = (tr, Done (Returned None))) /\
  (err <> EOF ->
   run (pre ++ t :: rest) =
   (tr, Done (Returned (Some (StatusError Unknown
      ("cannot receive stream request: " ++ Error_ err)))))).
Proof.
  intros Hpre Hctx Hrecv.
  assert (P : pass t =
              ([], Done (Return
                 (if is_EOF err then None
                  else Some (StatusError Unknown
                         ("cannot receive stream request: " ++ Error_ err)))))).
  { unfold Process_iteration. rewrite Hctx, Hrecv.
    destruct (is_EOF err); reflexivity. }
  assert (R : forall e, pass t = ([], Done (Return e)) ->
              run (pre ++ t :: rest) = (tr, Done (Returned e))).
  { intros e Pe. rewrite run_app, Hpre, bind_done.
    rewrite (run_returns t rest [] e Pe). cbn [fst snd].
    now rewrite app_nil_r. }
  split; intros E; apply R; rewrite P.
  - subst err. reflexivity.
  - destruct err; try reflexivity. now elim E.
Qed.

(** *** Failures of the decision fetch *)

Lemma logged_app (lvl : Level) (t1 t2 : list Event) :
  logged lvl (t1 ++ t2) = logged lvl t1 ++ logged lvl t2.
Proof.
  induction t1 as [|e t1 IH]; [reflexivity|].
  destruct e as [l m| | |r]; cbn [app logged]; try exact IH.
  destruct l, lvl; cbn [app]; now rewrite IH.
Qed.

(** What a pass does with an error of the fetch. *)
Lemma pass_fetch_error (t : Turn Body) (hs : list core_v3.HeaderValue)
    (tr : list Event) (d : string) (e : error) :
  ctx_err t = None ->
  recv t = RecvOk (request_headers hs) ->
  range hs = "" ->
  fetch (get t) = (tr, Done (d, Some e)) ->
  generate (header_set hs) (get t) =
    (tr ++ [Log Error "failed to fetch routing decision"],
     Done (HeadersResponse_zero, Some e)) /\
  pass t =
    (Log Debug "got RequestHeaders" :: tr
       ++ [Log Error "failed to fetch routing decision"],
     Done (Return (Some e))).
Proof.
  intros Hctx Hrecv R F.
  assert (G : generate (header_set hs) (get t) =
              (tr ++ [Log Error "failed to fetch routing decision"],
               Done (HeadersResponse_zero, Some e))).
  { rewrite generate_unfold, R, F. cbn [String.eqb]. now rewrite bind_done. }
  split; [exact G|].
  rewrite (pass_request_headers t hs Hctx Hrecv), G.
  unfold log. rewrite bind_emit, bind_done. cbn [fst snd ret].
  now rewrite app_nil_r.
Qed.

(** C1, as the code has it.  When the fetch of the decision returns an error
    while a request-headers message that names no preferred service is
    handled, [Process] sends no response for the message and returns that
    error, which ends the stream; the responses sent before are those of the
    earlier passes. *)
Theorem fetch_error_ends_the_stream
    (pre rest : list (Turn Body)) (t : Turn Body)
    (hs : list core_v3.HeaderValue)
    (tr0 tr : list Event) (d : string) (e : error) :
  run pre = (tr0, Done Receiving) ->
  ctx_err t = None ->
  recv t = RecvOk (request_headers hs) ->
  range hs = "" ->
  fetch (get t) = (tr, Done (d, Some e)) ->
  result_of (pass t) = Done (Return (Some e)) /\
  sent (trace_of (pass t)) = [] /\
  result_of (run (pre ++ t :: rest)) = Done (Returned (Some e)) /\
  sent (trace_of (run (pre ++ t :: rest))) = sent tr0.
Proof.
  intros Hpre Hctx Hrecv R F.
  destruct (pass_fetch_error t hs tr d e Hctx Hrecv R F) as [_ P].
  assert (S : sent (Log Debug "got RequestHeaders" :: tr
                      ++ [Log Error "failed to fetch routing decision"]) = []).
  { cbn [sent]. rewrite sent_app, app_nil_r.
    pose proof (fetch_sends_nothing (get t)) as N.
    now rewrite F in N. }
  rewrite run_app, Hpre, bind_done, (run_returns t rest _ _ P), P.
  cbn [result_of trace_of fst snd]. rewrite sent_app, S, app_nil_r.
  repeat split.
Qed.

(** C2, as the code has it.  When the body answered by the decision endpoint
    does not decode, the decode error is logged and
    [generateRoutingDecision] returns the empty response, with no mutation and
    no clearing of the route cache, together with that error; [Process] then
    returns the error without sending a response for the message. *)
Theorem decode_error_ends_the_stream
    (t : Turn Body) (hs : list core_v3.HeaderValue) (resp : Response Body)
    (d : RoutingDecision) (e : error) :
  ctx_err t = None ->
  recv t = RecvOk (request_headers hs) ->
  range hs = "" ->
  endpoint <> "" ->
  get t = GetOk resp ->
  Decode (Body_ Body resp) (mkRoutingDecision "") = (d, Some e) ->
  In "error decoding response from external service"
     (logged Error (trace_of (pass t))) /\
  (exists tr r,
     generate (header_set hs) (get t) = (tr, Done (r, Some e)) /\
     GetHeaderMutation r = None /\
     GetClearRouteCache r = false) /\
  result_of (pass t) = Done (Return (Some e)) /\
  sent (trace_of (pass t)) = [] /\
  forall rest, result_of (run (t :: rest)) = Done (Returned (Some e)).
Proof.
  intros Hctx Hrecv R E Hget D.
  pose proof (fetch_answered resp E) as F. rewrite D in F. cbn [fst snd] in F.
  rewrite <- Hget in F.
  destruct (pass_fetch_error t hs _ _ e Hctx Hrecv R F) as [G P].
  split.
  { rewrite P. cbn [trace_of fst]. cbn [logged app]. now left. }
  split.
  { eexists. exists HeadersResponse_zero. split; [exact G|]. now split. }
  split; [now rewrite P|]. split.
  { pose proof (fetch_sends_nothing (get t)) as N.
    rewrite F in N. rewrite P. exact N. }
  intros rest. now rewrite (run_returns t rest _ _ P).
Qed.
End Decision.

(** ** The stop sequence *)

(** C7, as the code has it.  [Stop] drains the gRPC server when one is set,
    removes the socket file when the network is unix, whatever the removal
    answers, and shuts the HTTP backend down, when one is set, within thirty
    seconds.  When that shutdown succeeds, or there is no backend, it then
    waits the five seconds of the post-shutdown delay and returns no error;
    when the shutdown fails it returns the wrapped error at once, without the
    delay. *)
Theorem Stop_sequence (s : server.Server) (w : server.World) :
  server.actions (trace_of (server.Stop s w)) =
    match server.grpcServer s with
    | Some _ => [server.GracefulStop]
    | None => []
    end
    ++ (if String.eqb (server.grpcNetwork s) "unix"
        then [server.RemoveAll (server.grpcAddress s)]
        else [])
    ++ match server.httpsrv (server.mockBackend s), server.shutdown_err w with
       | Some _, Some _ => [server.Shutdown 30000000000]
       | Some _, None =>
           [server.Shutdown 30000000000; server.Sleep 5000000000]
       | None, _ => [server.Sleep 5000000000]
       end
    ++ [server.Cancel]
  /\ result_of (server.Stop s w) =
     Done match server.httpsrv (server.mockBackend s), server.shutdown_err w with
          | Some _, Some err => Some (Wrapf "http server shutdown error: " err)
          | _, _ => None
          end.
Proof.
  destruct s as [g net addr [en bind h]], w as [re se].
  unfold server.Stop.
  cbn [server.grpcServer server.grpcNetwork server.grpcAddress
       server.mockBackend server.httpsrv server.shutdown_err].
  destruct g, (String.eqb net "unix"), h, se; split; reflexivity.
Qed.

(** ** The properties at work in the concrete environment *)

Module at_sample.
Import sample.

(** An unreachable endpoint: the pass neither answers nor goes on. *)
Lemma unreachable_endpoint_is_not_answered :
  ~ answers_and_continues (pass (turn (request_headers plain) (GetErr refused))).
Proof.
  intros [R _]. vm_compute in R. discriminate R.
Qed.

(** The same pass blocks after the GET, with nothing sent. *)
Example unreachable_endpoint_blocks :
  pass (turn (request_headers plain) (GetErr refused)) =
  ([Log Debug "got RequestHeaders";
    Log Debug "calling the external service";
    HttpGet "http://decision.local/route";
    Log Error "unable to get the routing decision from external service"],
   Hang).
Proof. reflexivity. Qed.

(** With the endpoint unset the fetch returns its configuration error, and
    the stream ends there. *)
Lemma unset_endpoint_error_ends_stream :
  let body := turn (mkProcessingRequest (Some ProcessingRequest_RequestBody))
                   (GetErr refused) in
  let hdrs := turn (request_headers plain) (GetErr refused) in
  let e := Errorf "routing decision server has not been configured" in
  let P := Process ToLower Body Decode cfg_unset in
  let I := Process_iteration ToLower Body Decode cfg_unset in
  result_of (I hdrs) = Done (Return (Some e)) /\
  sent (trace_of (I hdrs)) = [] /\
  result_of (P ([body] ++ hdrs :: [body])) = Done (Returned (Some e)) /\
  sent (trace_of (P ([body] ++ hdrs :: [body]))) = sent (trace_of (P [body])).
Proof.
  cbv zeta.
  apply (fetch_error_ends_the_stream ToLower Body Decode cfg_unset
           [turn (mkProcessingRequest (Some ProcessingRequest_RequestBody))
                 (GetErr refused)]
           [turn (mkProcessingRequest (Some ProcessingRequest_RequestBody))
                 (GetErr refused)]
           (turn (request_headers plain) (GetErr refused)) plain
           (trace_of (Process ToLower Body Decode cfg_unset
              [turn (mkProcessingRequest (Some ProcessingRequest_RequestBody))
                    (GetErr refused)]))
           [Log Error "unable to get the routing decision from external service"]
           ""
           (Errorf "routing decision server has not been configured"));
    reflexivity.
Defined.

(** A body that is not JSON: the pass does not answer and does not go on. *)
Lemma malformed_body_is_not_answered :
  ~ answers_and_continues (pass (turn (request_headers plain) (answer NotJSON))).
Proof.
  intros [R _]. vm_compute in R. discriminate R.
Qed.

Lemma not_json_body_ends_stream :
  result_of (pass (turn (request_headers plain) (answer NotJSON))) =
    Done (Return (Some (Foreign "invalid character 'o' looking for beginning of value")))
  /\ sent (trace_of (pass (turn (request_headers plain) (answer NotJSON)))) = [].
Proof.
  refine (let H := decode_error_ends_the_stream ToLower Body Decode cfg
            (turn (request_headers plain) (answer NotJSON)) plain
            (mkResponse 200%Z NotJSON) (mkRoutingDecision "") _ _ _ _ _ _ _
          in conj (proj1 (proj2 (proj2 H))) (proj1 (proj2 (proj2 (proj2 H)))));
    try reflexivity.
  discriminate.
Defined.

(** The first occurrence of the preference header decides, whatever its
    case and whatever the endpoint would answer. *)
Lemma mixed_case_preference_decides :
  let t := turn (request_headers preferring) (GetErr refused) in
  lookup preferring = "svc-a" /\
  exists resp,
    generate (header_set preferring) (GetErr refused) = ([], Done (resp, None)) /\
    GetHeaderMutation resp =
      Some (mkHeaderMutation
              [set_decision cfg "svc-a"] ["preferred-svc"]) /\
    GetClearRouteCache resp = true /\
    fetched (trace_of (pass t)) = [] /\
    sent (trace_of (pass t)) = [headers_response resp].
Proof.
  cbv zeta.
  apply (preference_header_short_circuits ToLower Body Decode cfg
           [core_v3.mkHeaderValue ":path" "/"]
           [core_v3.mkHeaderValue "preferred-svc" "svc-z"]
           (core_v3.mkHeaderValue "Preferred-Svc" "svc-a")
           (turn (request_headers preferring) (GetErr refused))).
  - reflexivity.
  - intros x [<-|[]]. vm_compute. discriminate.
  - reflexivity.
  - discriminate.
  - reflexivity.
  - reflexivity.
Defined.

(** An endpoint that answers the empty decision. *)
Lemma empty_decision_on_plain_request :
  exists tr r,
    generate (header_set plain) (answer (DecisionObject "")) =
      (tr, Done (r, None)) /\
    r = HeadersResponse_zero /\
    GetHeaderMutation r = None /\
    GetClearRouteCache r = false /\
    fetched tr = ["http://decision.local/route"] /\
    sent tr = [].
Proof.
  apply (empty_decision_leaves_request_unmodified ToLower Body Decode cfg
           plain (mkResponse 200%Z (DecisionObject ""))).
  - reflexivity.
  - intros x [<-|[<-|[]]]; vm_compute; discriminate.
  - discriminate.
  - reflexivity.
Defined.

(** A request body is answered by the empty response and the loop goes on. *)
Lemma request_body_is_answered_empty :
  let t := turn (mkProcessingRequest (Some ProcessingRequest_RequestBody))
                (GetErr refused) in
  sent (trace_of (pass t)) = [ProcessingResponse_zero] /\
  fetched (trace_of (pass t)) = [] /\
  result_of (pass t) = Done Continue /\
  (send_err t = None ->
   forall rest,
     run (t :: rest) =
     (trace_of (pass t) ++ trace_of (run rest), result_of (run rest))).
Proof.
  cbv zeta.
  apply (inert_message_gets_one_empty_response ToLower Body Decode cfg
           (turn (mkProcessingRequest (Some ProcessingRequest_RequestBody))
                 (GetErr refused))
           (mkProcessingRequest (Some ProcessingRequest_RequestBody)));
    reflexivity.
Defined.

(** The peer closes, or the transport breaks, after one answered message. *)
Lemma closed_or_broken_after_body :
  let body := turn (mkProcessingRequest (Some ProcessingRequest_RequestBody))
                   (GetErr refused) in
  let closed := mkTurn None (RecvErr EOF) (GetErr refused) None in
  let broken := mkTurn None (RecvErr (Foreign "connection reset by peer"))
                       (GetErr refused) None in
  run ([body] ++ closed :: [body]) =
    (trace_of (run [body]), Done (Returned None)) /\
  run ([body] ++ broken :: [body]) =
    (trace_of (run [body]),
     Done (Returned (Some (StatusError Unknown
       "cannot receive stream request: connection reset by peer")))).
Proof.
  cbv zeta. split.
  - apply (receive_failure_ends_the_stream ToLower Body Decode cfg
             [turn (mkProcessingRequest (Some ProcessingRequest_RequestBody))
                   (GetErr refused)]
             [turn (mkProcessingRequest (Some ProcessingRequest_RequestBody))
                   (GetErr refused)]
             (mkTurn None (RecvErr EOF) (GetErr refused) None) EOF);
      reflexivity.
  - apply (receive_failure_ends_the_stream ToLower Body Decode cfg
             [turn (mkProcessingRequest (Some ProcessingRequest_RequestBody))
                   (GetErr refused)]
             [turn (mkProcessingRequest (Some ProcessingRequest_RequestBody))
                   (GetErr refused)]
             (mkTurn None (RecvErr (Foreign "connection reset by peer"))
                     (GetErr refused) None)
             (Foreign "connection reset by peer"));
      try reflexivity.
    discriminate.
Defined.

(** No endpoint configured: nothing is fetched. *)
Lemma unset_endpoint_is_never_called :
  fetchRoutingDecision Body Decode cfg_unset (answer (DecisionObject "svc-b")) =
    ([Log Error "unable to get the routing decision from external service"],
     Done ("", Some (Errorf "routing decision server has not been configured")))
  /\ fetched (trace_of (fetchRoutingDecision Body Decode cfg_unset
                          (answer (DecisionObject "svc-b")))) = [].
Proof.
  apply (fetch_unconfigured_fails_before_any_call Body Decode cfg_unset
           (answer (DecisionObject "svc-b"))).
  reflexivity.
Defined.

(** A refused connection: the fetch never returns. *)
Lemma refused_connection_blocks_fetch :
  result_of (fetch (GetErr refused)) = Hang /\
  fetched (trace_of (fetch (GetErr refused))) = ["http://decision.local/route"] /\
  logged Error (trace_of (fetch (GetErr refused))) =
    ["unable to get the routing decision from external service"].
Proof.
  apply (fetch_blocks_when_get_fails Body Decode cfg refused).
  discriminate.
Defined.

(** A decision of the endpoint for a request without preference header: the
    removal of the preference header is there all the same. *)
Lemma fetched_decision_removes_preference :
  exists d hs,
    d <> "" /\
    SetHeaders (mkHeaderMutation [set_decision cfg "svc-b"] ["preferred-svc"])
      = [set_decision cfg d] /\
    RemoveHeaders (mkHeaderMutation [set_decision cfg "svc-b"] ["preferred-svc"])
      = ["preferred-svc"] /\
    header_set plain = header_set hs /\
    (lookup hs = d \/
     lookup hs = "" /\
     exists t, fetch (answer (DecisionObject "svc-b")) = (t, Done (d, None))).
Proof.
  apply (mutation_has_one_set_and_one_removal ToLower Body Decode cfg
           (header_set plain) (answer (DecisionObject "svc-b"))
           (trace_of (generate (header_set plain)
                               (answer (DecisionObject "svc-b"))))
           (build_response cfg "svc-b") None
           (mkHeaderMutation [set_decision cfg "svc-b"] ["preferred-svc"]));
    reflexivity.
Defined.

(** A backend whose shutdown fails: [Stop] returns without the delay. *)
Lemma failed_shutdown_skips_the_delay :
  ~ settles (server.Stop unix_server
               (server.mkWorld None (Some (Foreign "context deadline exceeded")))).
Proof.
  intros [r [_ H]]. vm_compute in H.
  repeat (destruct H as [H|H]; [discriminate H|]). exact H.
Qed.
End at_sample.

(** ** More on the stream processor *)

Section Stream.
Variable ToLower : string -> string.
Variable Body : Type.
Variable Decode : Body -> RoutingDecision -> RoutingDecision * option error.
Variable cfg : config.t.

Local Abbreviation range := (getPreferredSvcFromHeaders_range ToLower cfg).
Local Abbreviation fetch := (fetchRoutingDecision Body Decode cfg).
Local Abbreviation generate := (generateRoutingDecision ToLower Body Decode cfg).
Local Abbreviation pass := (Process_iteration ToLower Body Decode cfg).
Local Abbreviation run := (Process ToLower Body Decode cfg).
Local Abbreviation preferred := (config.PreferredSvcHeader cfg).
Local Abbreviation endpoint := (config.RoutingDecisionServer cfg).

(** *** What a fetch and a decision leave in the trace *)

(** The three shapes of the trace and result of [fetchRoutingDecision]. *)
Lemma fetch_cases (world : GetResult Body) :
  (endpoint = "" /\
   fetch world =
     ([Log Error "unable to get the routing decision from external service"],
      Done ("", Some (Errorf "routing decision server has not been configured"))))
  \/ (endpoint <> "" /\ exists err, world = GetErr err /\
      fetch world =
        ([Log Debug "calling the external service"; HttpGet endpoint;
          Log Error "unable to get the routing decision from external service"],
         Hang))
  \/ (endpoint <> "" /\ exists resp pre, world = GetOk resp /\
      fetched pre = [] /\ closed pre = 0 /\
      fetch world =
        (Log Debug "calling the external service" :: HttpGet endpoint
           :: pre ++ [BodyClose],
         Done (Decision (fst (Decode (Body_ Body resp) (mkRoutingDecision ""))),
               snd (Decode (Body_ Body resp) (mkRoutingDecision ""))))).
Proof.
  destruct (String.eqb_spec endpoint "") as [E|E].
  - left. split; [exact E|]. apply fetch_unset, E.
  - right. destruct world as [resp|err].
    + right. split; [exact E|]. exists resp.
      exists (Log Debug "fetching took"
                :: match snd (Decode (Body_ Body resp) (mkRoutingDecision "")) with
                   | Some _ =>
                       [Log Error "error decoding response from external service"]
                   | None => []
                   end).
      split; [reflexivity|].
      rewrite (fetch_answered Body Decode cfg resp E).
      destruct (snd (Decode (Body_ Body resp) (mkRoutingDecision "")));
        repeat split.
    + left. split; [exact E|]. exists err. split; [reflexivity|].
      apply fetch_refused, E.
Qed.

Lemma closed_app (t1 t2 : list Event) : closed (t1 ++ t2) = closed t1 + closed t2.
Proof.
  induction t1 as [|e t1 IH]; [reflexivity|].
  destruct e; cbn [app closed]; rewrite IH; reflexivity.
Qed.

(** [generateRoutingDecision] on a request without header map. *)
Lemma generate_nil (in_ : option HttpHeaders) (world : GetResult Body) :
  in_ = None \/ in_ = Some (mkHttpHeaders None) ->
  generate in_ world = ([], Panic).
Proof. intros [-> | ->]; reflexivity. Qed.

Lemma header_set_or_nil (in_ : option HttpHeaders) :
  (in_ = None \/ in_ = Some (mkHttpHeaders None)) \/ exists hs, in_ = header_set hs.
Proof.
  destruct in_ as [[[[hs]|]]|]; auto. right. now exists hs.
Qed.

(** [generateRoutingDecision] adds at most one log entry to the trace of the
    fetch it makes, and makes no fetch when the request decides. *)
Lemma generate_trace (in_ : option HttpHeaders) (world : GetResult Body) :
  trace_of (generate in_ world) = []
  \/ exists tail, trace_of (generate in_ world) = trace_of (fetch world) ++ tail /\
                   sent tail = [] /\ fetched tail = [] /\ closed tail = 0.
Proof.
  destruct (header_set_or_nil in_) as [N | [hs ->]].
  - left. now rewrite (generate_nil in_ world N).
  - rewrite generate_unfold.
    destruct (String.eqb (range hs) ""); [|now left].
    right. destruct (fetch world) as [t [[d [e|]]| |]].
    + exists [Log Error "failed to fetch routing decision"].
      rewrite bind_done. repeat split.
    + rewrite bind_done. cbn [fst snd].
      destruct (String.eqb d "").
      * exists [Log Error "no decision is present"]. repeat split.
      * exists []. repeat split.
    + exists []. cbn [bind trace_of fst]. now rewrite app_nil_r.
    + exists []. cbn [bind trace_of fst]. now rewrite app_nil_r.
Qed.

Lemma generate_sends_nothing (in_ : option HttpHeaders) (world : GetResult Body) :
  sent (trace_of (generate in_ world)) = [].
Proof.
  destruct (generate_trace in_ world) as [-> | (tail & -> & S & _)];
    [reflexivity|].
  now rewrite sent_app, S, (fetch_sends_nothing Body Decode cfg world).
Qed.

(** One pass of the loop on a request-headers message, with or without
    header map. *)
Lemma pass_on_headers (t : Turn Body) (h : option HttpHeaders) :
  ctx_err t = None ->
  recv t = RecvOk (mkProcessingRequest (Some (ProcessingRequest_RequestHeaders h))) ->
  pass t =
  bind (log Debug "got RequestHeaders") (fun _ =>
    bind (generate h (get t)) (fun x =>
      match snd x with
      | Some e => ret (Return (Some e))
      | None => send_response Body (headers_response (fst x)) t
      end)).
Proof.
  intros Hctx Hrecv. unfold Process_iteration. rewrite Hctx, Hrecv.
  cbn [Request]. unfold log. rewrite !bind_emit.
  destruct (generate h (get t)) as [tr [[r [e|]]| |]]; reflexivity.
Qed.

Lemma fetch_fetches_at_most_once (world : GetResult Body) :
  fetched (trace_of (fetch world)) = []
  \/ fetched (trace_of (fetch world)) = [endpoint].
Proof.
  destruct (fetch_cases world)
    as [[_ ->] | [(_ & err & _ & ->) | (_ & resp & pre & _ & F & _ & ->)]].
  - now left.
  - now right.
  - right. cbn [trace_of fst fetched]. now rewrite fetched_app, F.
Qed.

Lemma generate_fetches_at_most_once
    (in_ : option HttpHeaders) (world : GetResult Body) :
  fetched (trace_of (generate in_ world)) = []
  \/ fetched (trace_of (generate in_ world)) = [endpoint].
Proof.
  destruct (generate_trace in_ world) as [-> | (tail & -> & _ & F & _)];
    [now left|].
  rewrite fetched_app, F, app_nil_r. apply fetch_fetches_at_most_once.
Qed.

(** What one pass leaves in the trace, and when it goes round the loop. *)
Lemma pass_summary (t : Turn Body) :
  (length (sent (trace_of (pass t))) <= 1)%nat /\
  (fetched (trace_of (pass t)) = [] \/ fetched (trace_of (pass t)) = [endpoint]) /\
  (result_of (pass t) = Done Continue ->
   length (sent (trace_of (pass t))) = 1%nat /\
   send_err t = None /\ ctx_err t = None /\ exists req, recv t = RecvOk req).
Proof.
  destruct (ctx_err t) as [cause|] eqn:Hctx.
  { unfold Process_iteration. rewrite Hctx. cbn.
    repeat split; auto; discriminate. }
  destruct (recv t) as [req|err] eqn:Hrecv.
  2:{ unfold Process_iteration. rewrite Hctx, Hrecv.
      destruct (is_EOF err); cbn; repeat split; auto; discriminate. }
  assert (Inert : forall lvl m,
            pass t = bind (log lvl m)
                       (fun _ => send_response Body ProcessingResponse_zero t) ->
            (length (sent (trace_of (pass t))) <= 1)%nat /\
            (fetched (trace_of (pass t)) = []
             \/ fetched (trace_of (pass t)) = [endpoint]) /\
            (result_of (pass t) = Done Continue ->
             length (sent (trace_of (pass t))) = 1%nat /\
             send_err t = None /\ None = None :> option error /\
             exists req0, RecvOk req = RecvOk req0)).
  { intros lvl m ->. unfold send_response, log.
    destruct (send_err t); cbn; repeat split; auto; try discriminate.
    all: now exists req. }
  destruct req as [[[h| | |h| | |n]|]].
  2-8: eapply Inert; unfold Process_iteration; rewrite Hctx, Hrecv; reflexivity.
  rewrite (pass_on_headers t h Hctx Hrecv).
  pose proof (generate_sends_nothing h (get t)) as S.
  pose proof (generate_fetches_at_most_once h (get t)) as F.
  unfold log. rewrite bind_emit.
  destruct (generate h (get t)) as [tr [[r [e|]]| |]];
    cbn [trace_of result_of fst snd] in *.
  - rewrite bind_done. cbn [fst snd ret sent fetched].
    rewrite app_nil_r, S. repeat split; auto; discriminate.
  - rewrite bind_done. cbn [fst snd sent fetched].
    rewrite sent_app, fetched_app, S. unfold send_response, log.
    destruct (send_err t); cbn; rewrite app_nil_r;
      repeat split; auto; try discriminate.
    now exists (mkProcessingRequest (Some (ProcessingRequest_RequestHeaders h))).
  - cbn [bind fst snd sent fetched]. rewrite S.
    repeat split; auto; discriminate.
  - cbn [bind fst snd sent fetched]. rewrite S.
    repeat split; auto; discriminate.
Qed.

(** *** The loop *)

(** X1.  When the context is done at the top of a pass, [Process] returns
    the cause at once: after what the earlier passes did there is only the
    log entry, so the message that may be waiting is not received, nothing is
    fetched and nothing is sent. *)
Theorem cancelled_context_ends_the_stream
    (pre rest : list (Turn Body)) (t : Turn Body) (cause : error)
    (tr0 : list Event) :
  run pre = (tr0, Done Receiving) ->
  ctx_err t = Some cause ->
  run (pre ++ t :: rest) =
  (tr0 ++ [Log Debug "processing server context done"],
   Done (Returned (Some cause))).
Proof.
  intros Hpre Hctx.
  assert (P : pass t = ([Log Debug "processing server context done"],
                        Done (Return (Some cause)))).
  { unfold Process_iteration. now rewrite Hctx. }
  rewrite (run_app ToLower Body Decode cfg), Hpre, bind_done.
  now rewrite (run_returns ToLower Body Decode cfg t rest _ _ P).
Qed.

(** X2.  A pass goes round the loop only after it received a message and
    sent exactly one response that the transport took; no pass sends more
    than one response. *)
Theorem pass_continues_after_one_send (t : Turn Body) :
  (length (sent (trace_of (pass t))) <= 1)%nat /\
  (result_of (pass t) = Done Continue ->
   length (sent (trace_of (pass t))) = 1%nat /\
   send_err t = None /\ ctx_err t = None /\ exists req, recv t = RecvOk req).
Proof.
  destruct (pass_summary t) as (A & _ & B). now split.
Qed.

(** X3.  Responses and messages go one for one: [Process] never has sent
    more responses than it made passes, and while it is still receiving it
    has sent exactly one response per pass. *)
Theorem one_response_per_message (turns : list (Turn Body)) :
  (length (sent (trace_of (run turns))) <= length turns)%nat /\
  (result_of (run turns) = Done Receiving ->
   length (sent (trace_of (run turns))) = length turns).
Proof.
  induction turns as [|t turns [IH1 IH2]].
  - split; reflexivity.
  - rewrite (run_cons ToLower Body Decode cfg).
    destruct (pass_summary t) as (A & _ & B).
    unfold trace_of, result_of in *.
    destruct (pass t) as [tr [[|err]| |]]; cbn [fst snd] in *.
    + rewrite bind_done. cbn [trace_of result_of fst snd]. rewrite sent_app, length_app.
      destruct (B eq_refl) as (L & _). rewrite L. cbn [length Nat.add].
      split; [lia|]. intros R. now rewrite (IH2 R).
    + rewrite bind_done. cbn [trace_of result_of fst snd ret]. rewrite app_nil_r.
      cbn [length]. split; [lia | discriminate].
    + cbn [bind trace_of result_of fst snd length]. split; [lia | discriminate].
    + cbn [bind trace_of result_of fst snd length]. split; [lia | discriminate].
Qed.

(** X4.  Every outbound call of a stream is a GET of the configured
    endpoint, and there is at most one per pass. *)
Theorem every_fetch_is_of_the_endpoint (turns : list (Turn Body)) :
  Forall (fun url => url = endpoint) (fetched (trace_of (run turns))) /\
  (length (fetched (trace_of (run turns))) <= length turns)%nat.
Proof.
  induction turns as [|t turns [IH1 IH2]].
  - split; [constructor | reflexivity].
  - rewrite (run_cons ToLower Body Decode cfg).
    destruct (pass_summary t) as (_ & F & _).
    assert (F1 : Forall (fun url => url = endpoint) (fetched (trace_of (pass t)))
                 /\ (length (fetched (trace_of (pass t))) <= 1)%nat).
    { destruct F as [-> | ->]; split; cbn; auto. }
    destruct F1 as [Fa Fl].
    unfold trace_of, result_of in *.
    destruct (pass t) as [tr [[|err]| |]]; cbn [fst snd] in *.
    + rewrite bind_done. cbn [trace_of result_of fst snd]. rewrite fetched_app, length_app.
      split; [now apply Forall_app | cbn [length]; lia].
    + rewrite bind_done. cbn [trace_of result_of fst snd ret]. rewrite app_nil_r.
      split; [assumption | cbn [length]; lia].
    + cbn [bind trace_of result_of fst snd]. split; [assumption | cbn [length]; lia].
    + cbn [bind trace_of result_of fst snd]. split; [assumption | cbn [length]; lia].
Qed.

(** X5.  When [http.Get] fails during the pass of a request-headers message
    that names no preferred service, [Process] does not return and sends
    nothing more, whatever the peer sends next. *)
Theorem unreachable_endpoint_stalls_the_stream
    (pre rest : list (Turn Body)) (t : Turn Body)
    (hs : list core_v3.HeaderValue) (err : error) (tr0 : list Event) :
  run pre = (tr0, Done Receiving) ->
  ctx_err t = None ->
  recv t = RecvOk (request_headers hs) ->
  range hs = "" ->
  endpoint <> "" ->
  get t = GetErr err ->
  result_of (run (pre ++ t :: rest)) = Hang /\
  sent (trace_of (run (pre ++ t :: rest))) = sent tr0 /\
  fetched (trace_of (run (pre ++ t :: rest))) = fetched tr0 ++ [endpoint].
Proof.
  intros Hpre Hctx Hrecv R E G.
  assert (P : pass t =
              ([Log Debug "got RequestHeaders";
                Log Debug "calling the external service"; HttpGet endpoint;
                Log Error "unable to get the routing decision from external service"],
               Hang)).
  { rewrite (pass_request_headers ToLower Body Decode cfg t hs Hctx Hrecv).
    rewrite generate_unfold, R, G, (fetch_refused Body Decode cfg err E).
    reflexivity. }
  rewrite (run_app ToLower Body Decode cfg), Hpre, bind_done.
  rewrite (run_cons ToLower Body Decode cfg), P.
  cbn [bind trace_of result_of fst snd].
  rewrite sent_app, fetched_app. cbn [sent fetched].
  now rewrite app_nil_r.
Qed.

(** X6.  A request-headers message without header map makes the pass panic
    after its first log entry: nothing is fetched or sent. *)
Theorem missing_header_map_panics (t : Turn Body) (h : option HttpHeaders) :
  ctx_err t = None ->
  recv t = RecvOk (mkProcessingRequest (Some (ProcessingRequest_RequestHeaders h))) ->
  h = None \/ h = Some (mkHttpHeaders None) ->
  pass t = ([Log Debug "got RequestHeaders"], Panic).
Proof.
  intros Hctx Hrecv N.
  rewrite (pass_on_headers t h Hctx Hrecv), (generate_nil h (get t) N).
  reflexivity.
Qed.

(** *** Decisions *)

(** X7.  With no preference header in the request, an endpoint whose answer
    decodes to a non-empty decision is called once, and the response sent
    for the message sets the routing-decision header to that decision,
    removes the preference header and asks for the route cache to be
    cleared. *)
Theorem fetched_decision_is_set
    (t : Turn Body) (hs : list core_v3.HeaderValue) (resp : Response Body)
    (d : RoutingDecision) :
  lower_case ToLower preferred ->
  (forall x, In x hs -> ~ preference ToLower cfg x) ->
  endpoint <> "" ->
  ctx_err t = None ->
  recv t = RecvOk (request_headers hs) ->
  get t = GetOk resp ->
  Decode (Body_ Body resp) (mkRoutingDecision "") = (d, None) ->
  Decision d <> "" ->
  exists tr r,
    generate (header_set hs) (get t) = (tr, Done (r, None)) /\
    GetHeaderMutation r =
      Some (mkHeaderMutation [set_decision cfg (Decision d)] [preferred]) /\
    GetClearRouteCache r = true /\
    fetched tr = [endpoint] /\
    fetched (trace_of (pass t)) = [endpoint] /\
    sent (trace_of (pass t)) = [headers_response r].
Proof.
  intros L Hhs E Hctx Hrecv G D Dn.
  assert (R : range hs = "").
  { apply range_absent. intros x Hx K. apply (Hhs x Hx).
    now apply preference_iff. }
  apply String.eqb_neq in Dn.
  assert (Gen : generate (header_set hs) (get t) =
                ([Log Debug "calling the external service"; HttpGet endpoint;
                  Log Debug "fetching took"; BodyClose],
                 Done (build_response cfg (Decision d), None))).
  { rewrite generate_unfold, R, G, (fetch_answered Body Decode cfg resp E), D.
    cbn [snd fst app String.eqb]. rewrite bind_done.
    cbn [snd fst]. rewrite Dn. reflexivity. }
  eexists. exists (build_response cfg (Decision d)).
  split; [exact Gen|]. split; [reflexivity|]. split; [reflexivity|].
  split; [reflexivity|].
  rewrite (pass_request_headers ToLower Body Decode cfg t hs Hctx Hrecv), Gen.
  unfold log. rewrite bind_emit, bind_done. cbn [snd fst trace_of].
  destruct (send_response_sent Body
              (headers_response (build_response cfg (Decision d))) t)
    as (S & F & _).
  unfold trace_of in S, F. cbn [sent fetched app]. now rewrite S, F.
Qed.

(** X8.  The first occurrence of the preference header is the only one
    looked at: when its value is empty the request is handled as one with no
    header at all, whatever the later occurrences say. *)
Theorem empty_first_occurrence_is_no_preference
    (pre post : list core_v3.HeaderValue) (h : core_v3.HeaderValue)
    (world : GetResult Body) :
  (forall x, In x pre -> ToLower (core_v3.Key x) <> preferred) ->
  ToLower (core_v3.Key h) = preferred ->
  core_v3.RawValue h = "" ->
  range (pre ++ h :: post) = "" /\
  generate (header_set (pre ++ h :: post)) world = generate (header_set []) world.
Proof.
  intros Hpre Hh Hv.
  assert (R : range (pre ++ h :: post) = "").
  { rewrite (range_first ToLower cfg pre post h Hpre Hh). exact Hv. }
  split; [exact R|]. rewrite !generate_unfold, R. reflexivity.
Qed.

(** X9.  [fetchRoutingDecision] releases the body of the response exactly
    once, as its last step, whenever [http.Get] gave a response, whether or
    not the body decodes, and never otherwise. *)
Theorem body_is_released_once (world : GetResult Body) :
  (endpoint <> "" ->
   forall resp, world = GetOk resp ->
     closed (trace_of (fetch world)) = 1%nat /\
     exists before, trace_of (fetch world) = before ++ [BodyClose]) /\
  (endpoint = "" \/ (exists err, world = GetErr err) ->
   closed (trace_of (fetch world)) = 0%nat).
Proof.
  split.
  - intros E resp ->.
    destruct (fetch_cases (GetOk resp))
      as [[E' _] | [(_ & err & W & _) | (_ & r & pre & _ & _ & C & ->)]].
    + contradiction.
    + discriminate W.
    + cbn [trace_of fst closed]. rewrite closed_app, C. split; [reflexivity|].
      exists (Log Debug "calling the external service" :: HttpGet endpoint :: pre).
      reflexivity.
  - intros [E | [err ->]].
    + now rewrite (fetch_unset Body Decode cfg world E).
    + destruct (String.eqb_spec endpoint "") as [E|E].
      * now rewrite (fetch_unset Body Decode cfg _ E).
      * now rewrite (fetch_refused Body Decode cfg err E).
Qed.

(** X10.  In every response that [generateRoutingDecision] returns, the
    route cache is cleared exactly when a header mutation is carried, the
    status is to continue, and a response returned with an error carries no
    mutation. *)
Theorem cache_cleared_iff_mutation
    (in_ : option HttpHeaders) (world : GetResult Body)
    (tr : list Event) (resp : HeadersResponse) (err : option error) :
  generate in_ world = (tr, Done (resp, err)) ->
  (GetClearRouteCache resp = true <-> GetHeaderMutation resp <> None) /\
  (forall c, ext_proc_v3.Response resp = Some c ->
             Status c = CommonResponse_CONTINUE) /\
  (err <> None -> GetHeaderMutation resp = None).
Proof.
  intros G.
  assert (Z : resp = HeadersResponse_zero /\ True
              \/ exists d, resp = build_response cfg d /\ err = None).
  { destruct (header_set_or_nil in_) as [N | [hs ->]].
    { rewrite (generate_nil in_ world N) in G. discriminate G. }
    rewrite generate_unfold in G.
    destruct (String.eqb (range hs) "").
    - destruct (fetch world) as [t [[d [e|]]| |]]; try discriminate G.
      + rewrite bind_done in G. cbn [fst snd] in G. unfold log in G.
        rewrite bind_emit in G. injection G as _ <- _. now left.
      + rewrite bind_done in G. cbn [fst snd] in G.
        destruct (String.eqb d "").
        * unfold log in G. rewrite bind_emit in G.
          injection G as _ <- _. now left.
        * injection G as _ <- <-. right. now exists d.
    - injection G as _ <- <-. right. now eexists. }
  destruct Z as [[-> _] | [d [-> ->]]].
  - split; [|split].
    + cbn. split; [discriminate | intros H; now elim H].
    + intros c H. discriminate H.
    + reflexivity.
  - split; [|split].
    + cbn. split; [discriminate | reflexivity].
    + intros c H. injection H as <-. reflexivity.
    + intros H. now elim H.
Qed.

(** X11.  The status code of the answer of the endpoint is never looked at:
    two responses with the same body give the same decision, the same error
    and the same trace. *)
Theorem status_code_is_ignored
    (in_ : option HttpHeaders) (c1 c2 : Z) (body : Body) :
  fetch (GetOk (mkResponse c1 body)) = fetch (GetOk (mkResponse c2 body)) /\
  generate in_ (GetOk (mkResponse c1 body)) =
  generate in_ (GetOk (mkResponse c2 body)).
Proof.
  assert (F : fetch (GetOk (mkResponse c1 body)) =
              fetch (GetOk (mkResponse c2 body))).
  { destruct (String.eqb_spec endpoint "") as [E|E].
    - now rewrite !(fetch_unset Body Decode cfg _ E).
    - now rewrite !(fetch_answered Body Decode cfg _ E). }
  split; [exact F|].
  destruct (header_set_or_nil in_) as [N | [hs ->]].
  - now rewrite !(generate_nil in_ _ N).
  - rewrite !generate_unfold, F. reflexivity.
Qed.
End Stream.

(** ** More on the server *)

Module server_facts.
Import server.

(** *** Construction *)

Ltac fields :=
  cbn [grpcNetwork grpcAddress grpcServer mockBackend enabled bindAddress
       httpsrv].

(** X12.  Whatever the options do, [New] leaves no default unfilled: the
    network and the address of the gRPC listener are not empty, there is a
    gRPC server, and an enabled backend has a bind address that is not empty
    and an HTTP server set on that address. *)
Theorem New_fills_every_default (opts : list Option) :
  grpcNetwork (New opts) <> "" /\
  grpcAddress (New opts) <> "" /\
  grpcServer (New opts) <> None /\
  (enabled (mockBackend (New opts)) = true ->
   bindAddress (mockBackend (New opts)) <> "" /\
   httpsrv (mockBackend (New opts)) =
     Some (mkHttpServer (bindAddress (mockBackend (New opts))))).
Proof.
  unfold New.
  destruct (fold_left (fun s opt => opt s) opts Server_zero)
    as [g net addr [en bind h]].
  cbn [grpcNetwork grpcAddress grpcServer mockBackend enabled bindAddress httpsrv].
  destruct (String.eqb_spec net "") as [Hn|Hn];
    cbn [grpcNetwork grpcAddress grpcServer mockBackend enabled bindAddress httpsrv];
  destruct (String.eqb_spec addr "") as [Ha|Ha];
    cbn [grpcNetwork grpcAddress grpcServer mockBackend enabled bindAddress httpsrv];
  destruct g as [g|];
    cbn [grpcNetwork grpcAddress grpcServer mockBackend enabled bindAddress httpsrv];
  destruct en;
    cbn [grpcNetwork grpcAddress grpcServer mockBackend enabled bindAddress httpsrv];
  repeat split; try assumption; try discriminate;
  destruct (String.eqb_spec bind "") as [Hb|Hb]; try assumption; discriminate.
Qed.

(** The exported options touch disjoint parts of the server. *)
Lemma fold_exported (os : list Exported) (s : Server) :
  let r := fold_left (fun s opt => opt s) (map exported os) s in
  enabled (mockBackend r) = enabled (mockBackend s) || existsb is_UseMockBackend os /\
  bindAddress (mockBackend r) = bindAddress (mockBackend s) /\
  httpsrv (mockBackend r) = httpsrv (mockBackend s) /\
  (forallb is_UseMockBackend os = true ->
   grpcServer r = grpcServer s /\ grpcNetwork r = grpcNetwork s /\
   grpcAddress r = grpcAddress s).
Proof.
  cbv zeta. revert s. induction os as [|o os IH]; intros s.
  - cbn. rewrite orb_false_r. repeat split.
  - cbn [map fold_left existsb forallb].
    destruct (IH (exported o s)) as (E & B & H & G).
    rewrite E, B, H. destruct o as [g n a|]; cbn.
    + repeat split; easy.
    + rewrite orb_true_r. repeat split; apply G; assumption.
Qed.

(** X13.  Under the exported options the backend is enabled exactly when
    [WithMockBackend] is among them, and it then always binds the default
    address; options that only enable the backend leave the gRPC listener on
    its defaults. *)
Theorem New_backend_of_exported_options (os : list Exported) :
  mockBackend (New (map exported os)) =
    (if existsb is_UseMockBackend os
     then mkMockHttpBackend true ":8080" (Some (mkHttpServer ":8080"))
     else mkMockHttpBackend false "" None) /\
  (forallb is_UseMockBackend os = true ->
   grpcNetwork (New (map exported os)) = "tcp" /\
   grpcAddress (New (map exported os)) = ":8081" /\
   grpcServer (New (map exported os)) = Some (mkGrpcServer 1000)).
Proof.
  pose proof (fold_exported os Server_zero) as F. cbv zeta in F.
  destruct F as (E & B & H & G). unfold New.
  destruct (fold_left (fun s opt => opt s) (map exported os) Server_zero)
    as [g net addr [en bind h]].
  cbn [grpcNetwork grpcAddress grpcServer mockBackend enabled bindAddress
       httpsrv Server_zero orb] in *.
  subst en bind h. split.
  - destruct (String.eqb net ""); fields;
      destruct (String.eqb addr ""); fields;
      destruct g; fields;
      destruct (existsb is_UseMockBackend os); reflexivity.
  - intros A. destruct (G A) as (-> & -> & ->).
    destruct (existsb is_UseMockBackend os); repeat split.
Qed.

(** X14.  The address given to [WithGrpcServer] is kept with a colon put
    before it, so the default address never replaces it, not even when it is
    empty; an empty network becomes tcp and a nil server a new one. *)
Theorem New_keeps_the_given_listener
    (pre post : list Exported) (g : option grpc_Server) (n a : string) :
  forallb is_UseMockBackend post = true ->
  grpcAddress (New (map exported (pre ++ UseGrpcServer g n a :: post))) =
    (":" ++ a)%string /\
  grpcNetwork (New (map exported (pre ++ UseGrpcServer g n a :: post))) =
    (if String.eqb n "" then "tcp" else n) /\
  grpcServer (New (map exported (pre ++ UseGrpcServer g n a :: post))) =
    Some match g with
         | Some given => given
         | None => mkGrpcServer 1000
         end.
Proof.
  intros A.
  assert (K : forall r,
            r = fold_left (fun s opt => opt s)
                  (map exported (pre ++ UseGrpcServer g n a :: post)) Server_zero ->
            grpcServer r = g /\ grpcNetwork r = n /\
            grpcAddress r = (":" ++ a)%string).
  { intros r ->. rewrite map_app, fold_left_app. cbn [map fold_left].
    match goal with
    | |- context [fold_left ?f (map exported post) ?s0] =>
        pose proof (fold_exported post s0) as F; cbv zeta in F;
        destruct F as (_ & _ & _ & G); destruct (G A) as (Gs & Gn & Ga)
    end.
    repeat split; [exact Gs | exact Gn | exact Ga]. }
  unfold New.
  match goal with
  | |- context [fold_left ?f ?l Server_zero] =>
      specialize (K (fold_left f l Server_zero) eq_refl);
      destruct (fold_left f l Server_zero) as [g' net addr [en bind h]]
  end.
  cbn [grpcNetwork grpcAddress grpcServer mockBackend] in K.
  destruct K as (-> & -> & ->).
  fields. destruct (String.eqb n ""); cbn; destruct g, en; repeat split.
Qed.

(** *** Stopping a constructed server *)

(** What [Stop] needs to know of a server made by [New]. *)
Lemma New_server_and_backend (opts : list Option) :
  grpcServer (New opts) <> None /\
  (enabled (mockBackend (New opts)) = true ->
   httpsrv (mockBackend (New opts)) <> None).
Proof.
  unfold New.
  destruct (fold_left (fun s opt => opt s) opts Server_zero)
    as [g net addr [en bind h]].
  fields. destruct (String.eqb net ""); fields;
    destruct (String.eqb addr ""); fields;
    destruct g; fields; destruct en; fields;
    split; discriminate.
Qed.

Lemma New_exported_httpsrv (os : list Exported) :
  httpsrv (mockBackend (New (map exported os))) =
  if existsb is_UseMockBackend os then Some (mkHttpServer ":8080") else None.
Proof.
  pose proof (fold_exported os Server_zero) as F. cbv zeta in F.
  destruct F as (E & B & H & _). unfold New.
  destruct (fold_left (fun s opt => opt s) (map exported os) Server_zero)
    as [g net addr [en bind h]].
  cbn [mockBackend enabled bindAddress httpsrv Server_zero orb] in E, B, H.
  subst en bind h.
  fields. destruct (String.eqb net ""); fields;
    destruct (String.eqb addr ""); fields;
    destruct g; fields;
    destruct (existsb is_UseMockBackend os); reflexivity.
Qed.

(** X15.  A server made by [New] is always drained first when it is
    stopped, and its HTTP backend is shut down whenever it is enabled; under
    the exported options the backend is shut down exactly when
    [WithMockBackend] was given. *)
Theorem Stop_of_a_new_server (w : World) :
  (forall opts : list Option,
     (exists rest,
        actions (trace_of (Stop (New opts) w)) = GracefulStop :: rest) /\
     (enabled (mockBackend (New opts)) = true ->
      existsb is_Shutdown (actions (trace_of (Stop (New opts) w))) = true)) /\
  (forall os : list Exported,
     existsb is_Shutdown (actions (trace_of (Stop (New (map exported os)) w))) =
     existsb is_UseMockBackend os).
Proof.
  assert (S : forall s,
            grpcServer s <> None ->
            (exists rest, actions (trace_of (Stop s w)) = GracefulStop :: rest) /\
            existsb is_Shutdown (actions (trace_of (Stop s w))) =
              match httpsrv (mockBackend s) with
              | Some _ => true
              | None => false
              end).
  { intros [g net addr [en bind h]] G. destruct w as [re se].
    unfold Stop. fields. cbn [shutdown_err].
    destruct g as [g|]; [|now elim G].
    destruct (String.eqb net "unix"), h, se; split;
      try (eexists; reflexivity); reflexivity. }
  split.
  - intros opts.
    destruct (New_server_and_backend opts) as (G & H).
    destruct (S (New opts) G) as (D & Sh). split; [exact D|].
    intros En. rewrite Sh.
    destruct (httpsrv (mockBackend (New opts))); [reflexivity|].
    now elim (H En).
  - intros os.
    destruct (New_server_and_backend (map exported os)) as (G & _).
    destruct (S (New (map exported os)) G) as (_ & ->).
    rewrite (New_exported_httpsrv os).
    now destruct (existsb is_UseMockBackend os).
Qed.

(** *** Readiness *)

(** X16.  [IsReady] answers true exactly when the backend is disabled, or
    the request could be made and the backend answered it with status 200;
    it probes at most once, the [/headers] path of the bind address, and not
    at all when the backend is disabled. *)
Theorem IsReady_iff (s : Server) (w : ProbeWorld) :
  exists ready,
    result_of (IsReady s w) = Done ready /\
    (ready = true <->
     enabled (mockBackend s) = false \/
     (newrequest_err w = None /\ do_result w = inr 200%Z)) /\
    (trace_of (IsReady s w) = [] \/
     trace_of (IsReady s w) =
       [Get ("http://" ++ bindAddress (mockBackend s) ++ "/headers")]) /\
    (enabled (mockBackend s) = false -> trace_of (IsReady s w) = []).
Proof.
  unfold IsReady. destruct (enabled (mockBackend s)).
  2:{ exists true. repeat split; auto. }
  destruct w as [[e|] [e'|code]]; cbn [newrequest_err do_result].
  - exists false. repeat split; auto; try discriminate.
    intros [H|[H _]]; discriminate H.
  - exists false. repeat split; auto; try discriminate.
    intros [H|[H _]]; discriminate H.
  - exists false. repeat split; auto; try discriminate.
    intros [H|[_ H]]; discriminate H.
  - unfold StatusOK. destruct (Z.eqb_spec code 200) as [->|N].
    + exists true. repeat split; auto; discriminate.
    + exists false. repeat split; auto; try discriminate.
      intros [H|[_ H]]; [discriminate H|]. injection H as ->. now elim N.
Qed.

(** [IsReady] always returns. *)
Lemma IsReady_returns (s : Server) (w : ProbeWorld) :
  exists tr ready, IsReady s w = (tr, Done ready).
Proof.
  unfold IsReady. destruct (enabled (mockBackend s)); [|now eexists; eexists].
  destruct (newrequest_err w); [now eexists; eexists|].
  destruct (do_result w) as [e|code]; [now eexists; eexists|].
  destruct (negb (Z.eqb code StatusOK)); now eexists; eexists.
Qed.

(** X17.  [WaitReady] returns no error only at a tick whose probe found the
    server ready, and the error of the context only when the context expired;
    in both cases every earlier pass was a tick whose probe found the server
    not ready. *)
Theorem WaitReady_returns_at_the_first_decisive_pass
    (s : Server) (passes : list Select) :
  let unready p :=
    exists w, p = Tick w /\ result_of (IsReady s w) = Done false in
  (result_of (WaitReady s passes) = Done (Answered None) ->
   exists pre w rest,
     passes = pre ++ Tick w :: rest /\
     result_of (IsReady s w) = Done true /\ Forall unready pre) /\
  (forall cause,
     result_of (WaitReady s passes) = Done (Answered (Some cause)) ->
     exists pre rest,
       passes = pre ++ Expired cause :: rest /\ Forall unready pre).
Proof.
  cbv zeta. induction passes as [|p passes [IH1 IH2]].
  - split; [|intros cause]; discriminate.
  - destruct p as [c|w].
    + split; [discriminate|]. intros cause H. injection H as <-.
      exists [], passes. split; [reflexivity | constructor].
    + cbn [WaitReady].
      destruct (IsReady_returns s w) as (tr & ready & R). rewrite R.
      rewrite bind_done. unfold result_of in *. cbn [fst snd].
      destruct ready.
      * split.
        -- intros _. exists [], w, passes. rewrite R.
           repeat split. constructor.
        -- intros cause H. discriminate H.
      * assert (U : exists w0, Tick w = Tick w0 /\ snd (IsReady s w0) = Done false).
        { exists w. now rewrite R. }
        split.
        -- intros H. destruct (IH1 H) as (pre & w' & rest & -> & Rw & F).
           exists (Tick w :: pre), w', rest. repeat split; auto.
        -- intros cause H. destruct (IH2 cause H) as (pre & rest & -> & F).
           exists (Tick w :: pre), rest. split; auto.
Qed.

(** X18.  For a server without backend the first pass decides, with no
    probe at all: a tick gives no error, and an expiry that comes first gives
    the error of the context although the server is ready. *)
Theorem WaitReady_without_backend (s : Server) (passes : list Select) :
  enabled (mockBackend s) = false ->
  WaitReady s passes =
  ([], Done match passes with
            | [] => Waiting
            | Expired cause :: _ => Answered (Some cause)
            | Tick _ :: _ => Answered None
            end).
Proof.
  intros E. destruct passes as [|[c|w] rest]; try reflexivity.
  cbn [WaitReady]. unfold IsReady. rewrite E. reflexivity.
Qed.
End server_facts.

(** ** The expectations of the end-to-end cases *)

Module extproctest_facts.
Import extproctest.

(** X19.  The condition on the status code in [httpCall] holds for every
    status code: the check never rejects a response. *)
Theorem every_status_is_accepted (StatusCode : Z) :
  status_accepted StatusCode = true.
Proof.
  unfold status_accepted.
  destruct (Z.gtb_spec StatusCode 200) as [G|G]; [reflexivity|].
  destruct (Z.ltb_spec StatusCode 499) as [L|L]; [reflexivity|]. lia.
Qed.

Section WithRegexp.
Variable Compile : string -> option (string -> bool).
Variable describe :
  string -> string -> string -> string -> string -> list string -> string.

Local Abbreviation match_ := (match_ Compile).
Local Abbreviation Assert := (Assert Compile).
Local Abbreviation Assert_any := (Assert_any Compile).
Local Abbreviation Assert_all := (Assert_all Compile).

(** The way a value is matched does not depend on the action. *)
Lemma match_any_action (n e : string) (a : bool) (r x y v : string) :
  match_ (mkHeaderMatch n e a r x) v = match_ (mkHeaderMatch n e a r y) v.
Proof. reflexivity. Qed.

(** X20.  A matcher with both [Absent] and [Exact] set is reported as an
    exact matcher of its [Exact] value, but matches by absence: only the
    empty value matches, and the [Exact] value itself does not. *)
Theorem absent_wins_over_exact_but_is_reported_exact
    (hm : HeaderMatch) :
  Absent hm = true ->
  Exact hm <> "" ->
  MatchType hm = "exact" /\
  MatchValue hm = Exact hm /\
  (forall value, match_ hm value = Done (String.eqb value "")) /\
  match_ hm (Exact hm) = Done false.
Proof.
  intros A E. unfold MatchType, MatchValue, extproctest.match_.
  rewrite A. pose proof E as E'. apply String.eqb_neq in E'. rewrite E'.
  repeat split.
Qed.

(** X21.  An expectation that holds of all the values of a header holds of
    any of them and of the first: with one matcher, [ALL] implies [ANY],
    [FIRST] and the default action. *)
Theorem all_implies_any_and_first
    (n e : string) (a : bool) (r : string) (headers : http_Header) :
  Assert (mkHeaderMatch n e a r "ALL") headers = Done true ->
  Assert (mkHeaderMatch n e a r "ANY") headers = Done true /\
  Assert (mkHeaderMatch n e a r "FIRST") headers = Done true /\
  Assert (mkHeaderMatch n e a r "") headers = Done true.
Proof.
  unfold extproctest.Assert, Get, Values. cbn [MatchAction Name].
  cbn [String.eqb Ascii.eqb Bool.eqb orb andb MatchActionFirst MatchActionAny
       MatchActionAll].
  destruct (headers n) as [|v vs]; [discriminate|].
  cbn [length Nat.eqb extproctest.Assert_all extproctest.Assert_any].
  rewrite (match_any_action n e a r "ANY" "ALL" v).
  rewrite (match_any_action n e a r "FIRST" "ALL" v).
  rewrite (match_any_action n e a r "" "ALL" v).
  destruct (match_ (mkHeaderMatch n e a r "ALL") v) as [[|]| |];
    try discriminate.
  intros _. repeat split.
Qed.

(** X22.  A header with no value satisfies an [Absent] matcher under
    [FIRST] and under the default action, but not under [ANY] nor under
    [ALL]. *)
Theorem absent_header_under_each_action
    (n e r : string) (headers : http_Header) :
  Values headers n = [] ->
  Assert (mkHeaderMatch n e true r "FIRST") headers = Done true /\
  Assert (mkHeaderMatch n e true r "") headers = Done true /\
  Assert (mkHeaderMatch n e true r "ANY") headers = Done false /\
  Assert (mkHeaderMatch n e true r "ALL") headers = Done false.
Proof.
  unfold extproctest.Assert, Get, Values. cbn [Name MatchAction].
  intros ->. repeat split.
Qed.

(** [match_] returns unless it has to compile an expression that does not
    compile. *)
Lemma match_returns (hm : HeaderMatch) (value : string) :
  Absent hm = true \/ Exact hm <> "" \/ Regex hm = "" \/ Compile (Regex hm) <> None ->
  exists b, match_ hm value = Done b.
Proof.
  unfold extproctest.match_. intros H.
  destruct (Absent hm); [now eexists|].
  destruct (String.eqb_spec (Exact hm) "") as [E|E]; [|now eexists].
  destruct (String.eqb_spec (Regex hm) "") as [R|R]; [now eexists|].
  destruct (Compile (Regex hm)); [now eexists|].
  destruct H as [H|[H|[H|H]]]; try discriminate H; contradiction.
Qed.

(** X23.  [Assert] panics only when it has to compile an expression that
    does not compile: a matcher that is [Absent] or [Exact], or whose
    expression is empty or compiles, always gets an answer. *)
Theorem Assert_answers_unless_the_expression_is_invalid
    (hm : HeaderMatch) (headers : http_Header) :
  Absent hm = true \/ Exact hm <> "" \/ Regex hm = "" \/ Compile (Regex hm) <> None ->
  exists b, Assert hm headers = Done b.
Proof.
  intros H.
  assert (Any : forall vs, exists b, Assert_any hm vs = Done b).
  { induction vs as [|v vs [b IH]]; [now eexists|].
    cbn [extproctest.Assert_any].
    destruct (match_returns hm v H) as [[|] ->]; [now eexists|].
    now exists b. }
  assert (All : forall vs, exists b, Assert_all hm vs = Done b).
  { induction vs as [|v vs [b IH]]; [now eexists|].
    cbn [extproctest.Assert_all].
    destruct (match_returns hm v H) as [[|] ->]; [now exists b|].
    now eexists. }
  unfold extproctest.Assert.
  destruct (_ || _); [apply match_returns, H|].
  destruct (String.eqb _ MatchActionAny); [apply Any|].
  destruct (String.eqb _ MatchActionAll); [|now eexists].
  destruct (Nat.eqb _ 0); [now eexists | apply All].
Qed.

(** X24.  [Expect.Assert] returns no error exactly when every matcher of the
    request headers and every matcher of the response headers holds. *)
Theorem Expect_Assert_passes_iff_all_hold (e : Expect) (actual : Actual) :
  Expect_Assert Compile describe e actual = Done None <->
  Forall (fun h => Assert h (RequestHeaders actual) = Done true)
         (ExpectRequestHeaders e) /\
  Forall (fun h => Assert h (ResponseHeaders actual) = Done true)
         (ExpectResponseHeaders e).
Proof.
  assert (Each : forall side hs headers,
            Assert_each Compile describe side hs headers = Done None <->
            Forall (fun h => Assert h headers = Done true) hs).
  { intros side hs headers. induction hs as [|h hs IH].
    - split; [constructor | reflexivity].
    - cbn [Assert_each].
      destruct (Assert h headers) as [[|]| |] eqn:A.
      + rewrite IH. split.
        * intros F. now constructor.
        * intros F. now inversion F.
      + split; [discriminate|]. intros F. inversion F as [|? ? H1 H2].
        rewrite A in H1. discriminate H1.
      + split; [discriminate|]. intros F. inversion F as [|? ? H1 H2].
        rewrite A in H1. discriminate H1.
      + split; [discriminate|]. intros F. inversion F as [|? ? H1 H2].
        rewrite A in H1. discriminate H1. }
  unfold Expect_Assert.
  destruct (Assert_each Compile describe "request" (ExpectRequestHeaders e)
              (RequestHeaders actual)) as [[err|]| |] eqn:R.
  - split; [discriminate|]. intros [F _]. apply (Each "request") in F.
    rewrite R in F. discriminate F.
  - rewrite Each. split; [intros F; split; [|exact F] | now intros [_ F]].
    now apply (Each "request").
  - split; [discriminate|]. intros [F _]. apply (Each "request") in F.
    rewrite R in F. discriminate F.
  - split; [discriminate|]. intros [F _]. apply (Each "request") in F.
    rewrite R in F. discriminate F.
Qed.
End WithRegexp.
End extproctest_facts.

(** ** These properties at work in the concrete environment *)

Module at_fixtures.
Import sample fixtures.

(** A cancellation that comes while a request-headers message is waiting. *)
Lemma cancelled_after_one_message :
  let t := mkTurn (Some cancelled) (RecvOk (request_headers preferring))
                  (GetErr refused) None in
  run ([turn request_body (GetErr refused)] ++ t :: []) =
  (trace_of (run [turn request_body (GetErr refused)])
     ++ [Log Debug "processing server context done"],
   Done (Returned (Some cancelled))).
Proof.
  cbv zeta.
  apply (cancelled_context_ends_the_stream ToLower Body Decode cfg
           [turn request_body (GetErr refused)] []
           (mkTurn (Some cancelled) (RecvOk (request_headers preferring))
                   (GetErr refused) None)
           cancelled
           (trace_of (run [turn request_body (GetErr refused)])));
    reflexivity.
Defined.

(** A request body that was answered: the pass went round the loop. *)
Lemma answered_body_went_round :
  let t := turn request_body (GetErr refused) in
  length (sent (trace_of (pass t))) = 1%nat /\
  send_err t = None /\ ctx_err t = None /\ exists req, recv t = RecvOk req.
Proof.
  cbv zeta.
  apply (proj2 (pass_continues_after_one_send ToLower Body Decode cfg
                  (turn request_body (GetErr refused)))).
  reflexivity.
Defined.

(** Two messages, two responses. *)
Lemma two_messages_two_responses :
  let turns := [turn request_body (GetErr refused);
                turn (request_headers preferring) (GetErr refused)] in
  length (sent (trace_of (run turns))) = 2%nat.
Proof.
  cbv zeta.
  apply (proj2 (one_response_per_message ToLower Body Decode cfg
                  [turn request_body (GetErr refused);
                   turn (request_headers preferring) (GetErr refused)])).
  reflexivity.
Defined.

(** A refused connection in the middle of a stream. *)
Lemma refused_connection_stalls :
  let body := turn request_body (GetErr refused) in
  let hdrs := turn (request_headers plain) (GetErr refused) in
  result_of (run ([body] ++ hdrs :: [body])) = Hang /\
  sent (trace_of (run ([body] ++ hdrs :: [body]))) = sent (trace_of (run [body])) /\
  fetched (trace_of (run ([body] ++ hdrs :: [body]))) =
    fetched (trace_of (run [body])) ++ ["http://decision.local/route"].
Proof.
  cbv zeta.
  apply (unreachable_endpoint_stalls_the_stream ToLower Body Decode cfg
           [turn request_body (GetErr refused)]
           [turn request_body (GetErr refused)]
           (turn (request_headers plain) (GetErr refused)) plain refused
           (trace_of (run [turn request_body (GetErr refused)])));
    try reflexivity.
  discriminate.
Defined.

(** A request-headers message that carries nothing. *)
Lemma bare_request_headers_panic :
  pass (turn (mkProcessingRequest
                (Some (ProcessingRequest_RequestHeaders None)))
             (GetErr refused)) =
  ([Log Debug "got RequestHeaders"], Panic).
Proof.
  apply (missing_header_map_panics ToLower Body Decode cfg
           (turn (mkProcessingRequest
                    (Some (ProcessingRequest_RequestHeaders None)))
                 (GetErr refused))
           None); try reflexivity.
  now left.
Defined.

(** The endpoint decides for a request without preference header. *)
Lemma endpoint_decides_plain_request :
  let t := turn (request_headers plain) (answer (DecisionObject "svc-b")) in
  exists tr r,
    generate (header_set plain) (get t) = (tr, Done (r, None)) /\
    GetHeaderMutation r =
      Some (mkHeaderMutation [set_decision cfg "svc-b"] ["preferred-svc"]) /\
    GetClearRouteCache r = true /\
    fetched tr = ["http://decision.local/route"] /\
    fetched (trace_of (pass t)) = ["http://decision.local/route"] /\
    sent (trace_of (pass t)) = [headers_response r].
Proof.
  cbv zeta.
  apply (fetched_decision_is_set ToLower Body Decode cfg
           (turn (request_headers plain) (answer (DecisionObject "svc-b")))
           plain (mkResponse 200%Z (DecisionObject "svc-b"))
           (mkRoutingDecision "svc-b")).
  - reflexivity.
  - intros x [<-|[<-|[]]]; vm_compute; discriminate.
  - discriminate.
  - reflexivity.
  - reflexivity.
  - reflexivity.
  - reflexivity.
  - discriminate.
Defined.

(** An empty first occurrence hides the one that follows. *)
Lemma undecided_request_asks_the_endpoint :
  lookup undecided = "" /\
  generate (header_set undecided) (answer (DecisionObject "svc-b")) =
  generate (header_set []) (answer (DecisionObject "svc-b")).
Proof.
  apply (empty_first_occurrence_is_no_preference ToLower Body Decode cfg
           [core_v3.mkHeaderValue ":path" "/"]
           [core_v3.mkHeaderValue "preferred-svc" "svc-z"]
           (core_v3.mkHeaderValue "preferred-svc" "")
           (answer (DecisionObject "svc-b"))).
  - intros x [<-|[]]. vm_compute. discriminate.
  - reflexivity.
  - reflexivity.
Defined.

(** The body of an answer that is not JSON is released all the same. *)
Lemma not_json_body_is_released :
  closed (trace_of (fetch (answer NotJSON))) = 1%nat /\
  exists before, trace_of (fetch (answer NotJSON)) = before ++ [BodyClose].
Proof.
  apply (proj1 (body_is_released_once Body Decode cfg (answer NotJSON)))
    with (resp := mkResponse 200%Z NotJSON).
  - discriminate.
  - reflexivity.
Defined.

(** The response to a request that names its service. *)
Lemma preferring_response_clears_the_cache :
  (GetClearRouteCache (build_response cfg "svc-a") = true <->
   GetHeaderMutation (build_response cfg "svc-a") <> None) /\
  (forall c, ext_proc_v3.Response (build_response cfg "svc-a") = Some c ->
             Status c = CommonResponse_CONTINUE) /\
  (@None error <> None -> GetHeaderMutation (build_response cfg "svc-a") = None).
Proof.
  apply (cache_cleared_iff_mutation ToLower Body Decode cfg
           (header_set preferring) (GetErr refused) []
           (build_response cfg "svc-a") None).
  reflexivity.
Defined.

(** A server made with its backend enabled. *)
Lemma enabled_backend_is_bound :
  server.bindAddress (server.mockBackend (server.New [server.WithMockBackend]))
    <> "" /\
  server.httpsrv (server.mockBackend (server.New [server.WithMockBackend])) =
    Some (server.mkHttpServer
            (server.bindAddress
               (server.mockBackend (server.New [server.WithMockBackend])))).
Proof.
  apply (proj2 (proj2 (proj2
           (server_facts.New_fills_every_default [server.WithMockBackend])))).
  reflexivity.
Defined.

Lemma backend_alone_keeps_grpc_defaults :
  server.grpcNetwork
    (server.New (map server.exported [server.UseMockBackend])) = "tcp" /\
  server.grpcAddress
    (server.New (map server.exported [server.UseMockBackend])) = ":8081" /\
  server.grpcServer
    (server.New (map server.exported [server.UseMockBackend])) =
    Some (server.mkGrpcServer 1000).
Proof.
  apply (proj2 (server_facts.New_backend_of_exported_options
                  [server.UseMockBackend])).
  reflexivity.
Defined.

(** An empty port is kept as a lone colon. *)
Lemma empty_port_is_kept :
  let os := [server.UseMockBackend] ++
            server.UseGrpcServer None "" "" :: [server.UseMockBackend] in
  server.grpcAddress (server.New (map server.exported os)) = ":" /\
  server.grpcNetwork (server.New (map server.exported os)) = "tcp" /\
  server.grpcServer (server.New (map server.exported os)) =
    Some (server.mkGrpcServer 1000).
Proof.
  cbv zeta.
  apply (server_facts.New_keeps_the_given_listener
           [server.UseMockBackend] [server.UseMockBackend] None "" "").
  reflexivity.
Defined.

Lemma enabled_backend_is_shut_down :
  existsb server.is_Shutdown
    (server.actions
       (trace_of (server.Stop (server.New [server.WithMockBackend])
                    (server.mkWorld None (Some expired))))) = true.
Proof.
  apply (proj2 (proj1 (server_facts.Stop_of_a_new_server
                         (server.mkWorld None (Some expired)))
                      [server.WithMockBackend])).
  reflexivity.
Defined.

(** A backend that answers 503 is not ready. *)
Lemma unavailable_backend_is_not_ready :
  result_of (server.IsReady with_backend unavailable) = Done false /\
  trace_of (server.IsReady with_backend unavailable) =
    [server.Get "http://:8080/headers"].
Proof.
  destruct (server_facts.IsReady_iff with_backend unavailable)
    as (ready & R & I & _).
  split; [|reflexivity].
  rewrite R. destruct ready; [|reflexivity].
  destruct (proj1 I eq_refl) as [H|[_ H]]; discriminate H.
Defined.

(** A backend that comes up at the third tick. *)
Lemma ready_at_the_third_tick :
  let unready p :=
    exists w, p = server.Tick w /\
              result_of (server.IsReady with_backend w) = Done false in
  exists pre w rest,
    [server.Tick down; server.Tick unavailable; server.Tick up;
     server.Expired expired] = pre ++ server.Tick w :: rest /\
    result_of (server.IsReady with_backend w) = Done true /\
    Forall unready pre.
Proof.
  cbv zeta.
  apply (proj1 (server_facts.WaitReady_returns_at_the_first_decisive_pass
                  with_backend
                  [server.Tick down; server.Tick unavailable; server.Tick up;
                   server.Expired expired])).
  reflexivity.
Defined.

(** A deadline that comes before the first tick. *)
Lemma ready_server_times_out :
  server.WaitReady without_backend [server.Expired expired; server.Tick up] =
  ([], Done (server.Answered (Some expired))).
Proof.
  apply (server_facts.WaitReady_without_backend without_backend
           [server.Expired expired; server.Tick up]).
  reflexivity.
Defined.

(** A matcher that asks for absence and for a value at once. *)
Lemma absent_and_exact_matcher :
  let hm := extproctest.mkHeaderMatch "x-routing-decision" "svc-a" true "" "" in
  extproctest.MatchType hm = "exact" /\
  extproctest.MatchValue hm = "svc-a" /\
  (forall value,
     extproctest.match_ Compile hm value = Done (String.eqb value "")) /\
  extproctest.match_ Compile hm "svc-a" = Done false.
Proof.
  cbv zeta.
  apply (extproctest_facts.absent_wins_over_exact_but_is_reported_exact Compile
           (extproctest.mkHeaderMatch "x-routing-decision" "svc-a" true "" "")).
  - reflexivity.
  - discriminate.
Defined.

Lemma decided_under_every_action :
  extproctest.Assert Compile
    (extproctest.mkHeaderMatch "x-routing-decision" "svc-a" false "" "ANY")
    decided = Done true /\
  extproctest.Assert Compile
    (extproctest.mkHeaderMatch "x-routing-decision" "svc-a" false "" "FIRST")
    decided = Done true /\
  extproctest.Assert Compile
    (extproctest.mkHeaderMatch "x-routing-decision" "svc-a" false "" "")
    decided = Done true.
Proof.
  apply (extproctest_facts.all_implies_any_and_first Compile
           "x-routing-decision" "svc-a" false "" decided).
  reflexivity.
Defined.

Lemma removed_header_under_every_action :
  extproctest.Assert Compile
    (extproctest.mkHeaderMatch "preferred-svc" "" true "" "FIRST") decided
    = Done true /\
  extproctest.Assert Compile
    (extproctest.mkHeaderMatch "preferred-svc" "" true "" "") decided
    = Done true /\
  extproctest.Assert Compile
    (extproctest.mkHeaderMatch "preferred-svc" "" true "" "ANY") decided
    = Done false /\
  extproctest.Assert Compile
    (extproctest.mkHeaderMatch "preferred-svc" "" true "" "ALL") decided
    = Done false.
Proof.
  apply (extproctest_facts.absent_header_under_each_action Compile
           "preferred-svc" "" "" decided).
  reflexivity.
Defined.

Lemma compiled_expression_is_answered :
  exists b,
    extproctest.Assert Compile
      (extproctest.mkHeaderMatch "x-routing-decision" "" false "svc-a" "ALL")
      decided = Done b.
Proof.
  apply (extproctest_facts.Assert_answers_unless_the_expression_is_invalid
           Compile
           (extproctest.mkHeaderMatch "x-routing-decision" "" false "svc-a" "ALL")
           decided).
  right. right. right. discriminate.
Defined.
End at_fixtures.
